(** * Shimmy proxies: request translation, stream relay and model download

    A shallow embedding of the three Flask proxies of the repository

    - [lightweight-proxy.py]       (module [Lightweight]),
    - [model-downloader-proxy.py]  (module [Downloader]),
    - [proxy-wrapper.py]           (module [Wrapper]),

    Request bodies are the Python values [request.json] yields, so they are
    modelled as JSON values with Python's truthiness, [dict.get] and [str].
    The backend, the file system and the sub-processes are the environment:
    every handler takes what the environment answers as an argument and
    returns its HTTP response together with the calls it made. *)

From Stdlib Require Import ZArith String Ascii PrimFloat.
From stdpp Require Import base option list gmap strings fin_maps pretty.

Set Warnings "-inexact-float,-register-all".
Open Scope Z_scope.
Open Scope string_scope.
Open Scope list_scope.

(** ** Python values read from JSON *)

Inductive json : Type :=
  | JNull                              (* None *)
  | JBool (b : bool)
  | JInt (n : Z)
  | JFloat (f : float)
  | JStr (s : string)
  | JArr (l : list json)
  | JObj (m : gmap string json).       (* dict with str keys *)

(** What the model takes from the Python runtime without defining it. *)
Class PyRuntime := {
  py_repr : json -> string;            (* str() of floats, lists and dicts *)
  py_hash : json -> Z;                 (* hash() of a hashable value *)
  py_float_of_int : Z -> option float; (* float(n); None: OverflowError *)
  py_truediv : Z -> Z -> float;        (* n / m on ints, m <> 0 *)
  py_round : float -> Z -> float;      (* round(x, ndigits) *)
  py_strip : string -> string;         (* s.strip() *)
  py_first_int : string -> option Z;   (* int(s.split('\n')[0]); None: ValueError *)
  now : Z                              (* int(time.time()) *)
}.

(** Exceptions, by the classes the handlers tell apart. [HfHubHTTPError]
    derives from [requests]' [HTTPError], [GeneratorExit] from
    [BaseException] only. *)
Inductive exn_class : Type :=
  | RequestException
  | HfHubHTTPError
  | AttributeError
  | TypeError
  | OSError
  | OtherException
  | GeneratorExit.

Record exn : Type := Exn { exn_cls : exn_class; exn_msg : string }.

Definition is_RequestException (e : exn) : bool :=
  match exn_cls e with
  | RequestException | HfHubHTTPError => true
  | _ => false
  end.

Definition is_HfHubHTTPError (e : exn) : bool :=
  match exn_cls e with
  | HfHubHTTPError => true
  | _ => false
  end.

Definition is_Exception (e : exn) : bool :=
  match exn_cls e with
  | GeneratorExit => false
  | _ => true
  end.

Inductive result (A : Type) : Type :=
  | Ok (a : A)
  | Raise (e : exn).
Arguments Ok {A} a.
Arguments Raise {A} e.

Definition rbind {A B} (r : result A) (k : A -> result B) : result B :=
  match r with
  | Ok a => k a
  | Raise e => Raise e
  end.

Declare Scope py_scope.
Delimit Scope py_scope with py.
Notation "x <- r ;; k" := (rbind r (fun x => k))
  (at level 100, r at next level, right associativity) : py_scope.

Fixpoint rmap {A B} (f : A -> result B) (l : list A) : result (list B) :=
  match l with
  | [] => Ok []
  | a :: l' =>
      (b <- f a ;;
       bs <- rmap f l' ;;
       Ok (b :: bs))%py
  end.

Definition nl : string := String "010"%char EmptyString.

Definition py_type_name (v : json) : string :=
  match v with
  | JNull => "NoneType"
  | JBool _ => "bool"
  | JInt _ => "int"
  | JFloat _ => "float"
  | JStr _ => "str"
  | JArr _ => "list"
  | JObj _ => "dict"
  end.

(** [bool(v)]. *)
Definition truthy (v : json) : bool :=
  match v with
  | JNull => false
  | JBool b => b
  | JInt n => negb (n =? 0)%Z
  | JFloat f => negb (PrimFloat.eqb f 0%float)
  | JStr s => negb (String.eqb s "")
  | JArr l => negb (Nat.eqb (length l) 0)
  | JObj m => negb (Nat.eqb (size m) 0)
  end.

(** [d.get(k, dflt)]: only a dict has the method. *)
Definition py_get (d : json) (k : string) (dflt : json) : result json :=
  match d with
  | JObj m => Ok (default dflt (m !! k))
  | _ => Raise (Exn AttributeError
                  ("'" +:+ py_type_name d +:+ "' object has no attribute 'get'"))
  end.

(** [k in d], as the handlers use it on the request body: a key test on a
    dict, a membership test on a list, a substring test on a str; the other
    values are not containers. *)
Definition py_in (k : string) (d : json) : result bool :=
  match d with
  | JObj m => Ok (bool_decide (is_Some (m !! k)))
  | JArr l => Ok (existsb (fun v => match v with
                                    | JStr s => String.eqb s k
                                    | _ => false
                                    end) l)
  | JStr s => Ok (bool_decide (is_Some (String.index 0 k s)))
  | _ => Raise (Exn TypeError
                  ("argument of type '" +:+ py_type_name d +:+ "' is not iterable"))
  end.

(** The items a [for] loop or a comprehension sees: the elements of a
    list, the keys of a dict, the characters of a str (here its bytes, in
    the order of the map for a dict; the handlers call [get] on each item,
    which a str item does not have, so neither choice shows). *)
Definition py_iter (v : json) : result (list json) :=
  match v with
  | JArr l => Ok l
  | JObj m => Ok (JStr <$> (map_to_list m).*1)
  | JStr s => Ok ((fun c => JStr (String c EmptyString)) <$> list_ascii_of_string s)
  | _ => Raise (Exn TypeError
                  ("'" +:+ py_type_name v +:+ "' object is not iterable"))
  end.

Section Formatting.
Context `{PyRuntime}.

(** [str(v)], what an f-string field inserts. *)
Definition py_str (v : json) : string :=
  match v with
  | JStr s => s
  | JNull => "None"
  | JBool true => "True"
  | JBool false => "False"
  | JInt n => pretty n
  | _ => py_repr v
  end.

(** ** The prompt of a request

    The three files derive the prompt with the same text:
<<
    if 'messages' in data:
        prompt = "\n".join([f"{msg.get('role', 'user')}: {msg.get('content', '')}"
                            for msg in data.get('messages', [])])
    else:
        prompt = data.get('prompt', '')
>> *)
Definition message_line (msg : json) : result string :=
  (role <- py_get msg "role" (JStr "user") ;;
   content <- py_get msg "content" (JStr "") ;;
   Ok (py_str role +:+ ": " +:+ py_str content))%py.

Definition extract_prompt (data : json) : result json :=
  (has <- py_in "messages" data ;;
   if (has : bool) then
     messages <- py_get data "messages" (JArr []) ;;
     msgs <- py_iter messages ;;
     lines <- rmap message_line msgs ;;
     Ok (JStr (String.concat nl lines))
   else
     py_get data "prompt" (JStr ""))%py.
End Formatting.

(** ** The environment and the state the handlers act on *)

Abbreviation bytes := (list Byte.byte).

(** One call of [requests.get] or [requests.post]. *)
Record backend_call : Type := Call {
  call_method : string;
  call_url : string;
  call_json : option json;
  call_stream : bool;
  call_timeout : Z
}.

(** A response read whole: [resp.status_code] and what [resp.json()] does. *)
Record buffered : Type := Buffered {
  status_code : Z;
  resp_json : result json
}.

(** A response opened with [stream=True]: what [iter_content] and
    [iter_lines] deliver, and the exception that ends the iteration early
    when the connection breaks. *)
Record streamed : Type := Streamed {
  iter_content : list bytes;
  iter_lines : list bytes;
  broken : option exn
}.

Record completed_process : Type := Completed {
  returncode : Z;
  stdout : string;
  stderr : string
}.

Inductive effect : Type :=
  | Http (c : backend_call)
  | MakeDirs (path : string)
  | HubDownload (repo_id filename : json) (local_dir : string)
  | Remove (path : string)
  | Subprocess (argv : list string).

Record env : Type := {
  send : backend_call -> result buffered;
  send_stream : backend_call -> result streamed;
  makedirs_answer : string -> result unit;
  hub_answer : json -> json -> string -> result (string * bytes);
  subprocess_answer : list string -> result completed_process
}.

(** [current_download] of model-downloader-proxy.py. *)
Record DownloadJob : Type := Job {
  in_progress : bool;
  job_model : json;                    (* key "model" *)
  job_filename : json                  (* key "filename" *)
}.

Definition idle : DownloadJob := Job false JNull JNull.

Record world : Type := World {
  current_download : DownloadJob;
  fs : gmap string bytes;
  effects : list effect
}.

Definition set_job (j : DownloadJob) (w : world) : world :=
  World j (fs w) (effects w).
Definition set_fs (f : gmap string bytes) (w : world) : world :=
  World (current_download w) f (effects w).
Definition log (e : effect) (w : world) : world :=
  World (current_download w) (fs w) (effects w ++ [e]).

(** Handler and generator code: state passing with exceptions. *)
Definition ST (S A : Type) : Type := S -> result A * S.

Definition ret {S A} (a : A) : ST S A := fun s => (Ok a, s).
Definition raise {S A} (e : exn) : ST S A := fun s => (Raise e, s).
Definition bind {S A B} (m : ST S A) (k : A -> ST S B) : ST S B :=
  fun s => match m s with
           | (Ok a, s') => k a s'
           | (Raise e, s') => (Raise e, s')
           end.
Definition lift {S A} (r : result A) : ST S A := fun s => (r, s).

Declare Scope M_scope.
Delimit Scope M_scope with M.
Notation "x <- m ;; k" := (bind m (fun x => k))
  (at level 100, m at next level, right associativity) : M_scope.
Notation "m ;; k" := (bind m (fun _ => k))
  (at level 100, right associativity) : M_scope.

(** [try: body except ...: handler]; [handler e = None] when no clause
    matches [e]. *)
Definition try_except {S A} (body : ST S A) (handler : exn -> option (ST S A))
  : ST S A :=
  fun s => match body s with
           | (Ok a, s') => (Ok a, s')
           | (Raise e, s') =>
               match handler e with
               | Some h => h s'
               | None => (Raise e, s')
               end
           end.

(** [try: body finally: fin]. *)
Definition try_finally {S A} (body : ST S A) (fin : ST S unit) : ST S A :=
  fun s => match body s with
           | (r, s') =>
               match fin s' with
               | (Ok _, s'') => (r, s'')
               | (Raise e, s'') => (Raise e, s'')
               end
           end.

(** A view function runs on the world. *)
Definition M (A : Type) : Type := ST world A.

Definition get_job : M DownloadJob := fun w => (Ok (current_download w), w).
Definition put_job (j : DownloadJob) : M unit := fun w => (Ok tt, set_job j w).

(** What [pull_model.generate] yields, and the line each one stands for:
<<
    {"status": "starting", "model": "{model_repo}", "filename": "{filename}"}
    {"status": "complete", "filename": "{filename}", "path": "{local_path}",
     "size_mb": {size_mb}, "discovered": {str(discover_success).lower()}}
    {"status": "error", "error": "{error_msg}"}
>> *)
Inductive DownloadEvent : Type :=
  | Starting (model filename : json)
  | Complete (filename : json) (path : string) (size_mb : float) (discovered : bool)
  | Error (message : string).

Inductive chunk : Type :=
  | Bytes (b : bytes)
  | Event (e : DownloadEvent).

(** A generator runs on the world too, appends what it yields, and knows
    how many chunks its consumer takes before closing it ([None]: the
    consumer iterates to the end). *)
Record gen_state : Type := GenState {
  gworld : world;
  yielded : list chunk;
  demand : option nat
}.

Definition G (A : Type) : Type := ST gen_state A.

Definition in_world {A} (m : M A) : G A :=
  fun g => match m (gworld g) with
           | (r, w') => (r, GenState w' (yielded g) (demand g))
           end.

(** [yield c]: the chunk goes out; a consumer that has had enough closes
    the generator, which raises [GeneratorExit] at the [yield]. *)
Definition yield (c : chunk) : G unit :=
  fun g =>
    match demand g with
    | None => (Ok tt, GenState (gworld g) (yielded g ++ [c]) None)
    | Some O =>
        (Raise (Exn OtherException "generator ignored GeneratorExit"), g)
    | Some (S O) =>
        (Raise (Exn GeneratorExit ""),
         GenState (gworld g) (yielded g ++ [c]) (Some O))
    | Some (S n) => (Ok tt, GenState (gworld g) (yielded g ++ [c]) (Some n))
    end.

(** Iterating a generator object: one that is closed before its first
    [next] never runs its body. *)
Definition run_generator (body : G unit) (taken : option nat) (w : world)
  : result unit * list chunk * world :=
  match taken with
  | Some O => (Ok tt, [], w)
  | _ =>
      match body (GenState w [] taken) with
      | (r, g) => (r, yielded g, gworld g)
      end
  end.

(** What a view function returns to Flask. *)
Inductive response : Type :=
  | JsonResponse (body : json) (status : Z)
  | StreamResponse (mimetype : string) (body : G unit).

Section Environment.
Context (E : env).

Definition requests (c : backend_call) : M buffered :=
  fun w => (send E c, log (Http c) w).

Definition requests_stream (c : backend_call) : M streamed :=
  fun w => (send_stream E c, log (Http c) w).

Definition os_makedirs (path : string) : M unit :=
  fun w => (makedirs_answer E path, log (MakeDirs path) w).

(** [hf_hub_download]: raises, or stores the file and returns its path. *)
Definition hf_hub_download (repo_id fname : json) (local_dir : string) : M string :=
  fun w =>
    let w' := log (HubDownload repo_id fname local_dir) w in
    match hub_answer E repo_id fname local_dir with
    | Ok (path, content) => (Ok path, set_fs (<[path := content]> (fs w')) w')
    | Raise e => (Raise e, w')
    end.

Definition os_remove (path : string) : M unit :=
  fun w =>
    let w' := log (Remove path) w in
    match fs w !! path with
    | Some _ => (Ok tt, set_fs (delete path (fs w')) w')
    | None => (Raise (Exn OSError ("No such file or directory: " +:+ path)), w')
    end.

Definition os_path_getsize (path : string) : M Z :=
  fun w =>
    match fs w !! path with
    | Some content => (Ok (Z.of_nat (length content)), w)
    | None => (Raise (Exn OSError ("No such file or directory: " +:+ path)), w)
    end.

Definition subprocess_run (argv : list string) : M completed_process :=
  fun w => (subprocess_answer E argv, log (Subprocess argv) w).
End Environment.

Definition dq : string := String "034"%char EmptyString.

(** [s.encode()]: a str is kept as its UTF-8 bytes. *)
Definition encode (s : string) : bytes := list_byte_of_string s.

(** [for chunk in chunks: if chunk: yield chunk], the same loop for
    [iter_content] with [emit c = c] and for [iter_lines] with
    [emit line = line + b'\n']. *)
Fixpoint relay (emit : bytes -> bytes) (chunks : list bytes) : G unit :=
  match chunks with
  | [] => ret tt
  | c :: rest =>
      ((match c with
        | [] => ret tt
        | _ => yield (Bytes (emit c))
        end) ;;
       relay emit rest)%M
  end.

(** The iteration over a streamed response ends with the exception that
    broke the connection, when there is one. *)
Definition end_of_stream (resp : streamed) : G unit :=
  match broken resp with
  | Some e => raise e
  | None => ret tt
  end.

(** ** lightweight-proxy.py *)
Module Lightweight.
Section Routes.
Context `{PyRuntime} (E : env).

Definition SHIMMY_URL : string := "http://localhost:8081".

Definition error_body (e : exn) : json :=
  JObj {[ "error" := JStr (exn_msg e) ]}.

Definition v1_health : M response :=
  try_except
    (resp <- requests E (Call "GET" (SHIMMY_URL +:+ "/health") None false 5) ;;
     body <- lift (resp_json resp) ;;
     ret (JsonResponse body (status_code resp)))%M
    (fun e =>
       if is_RequestException e then
         Some (ret (JsonResponse
                      (JObj {[ "status" := JStr "unhealthy";
                               "error" := JStr (exn_msg e) ]}) 503))
       else None).

(** [f'{{"error": "{str(e)}"}}\n'.encode()] *)
Definition error_chunk (e : exn) : bytes :=
  encode ("{" +:+ dq +:+ "error" +:+ dq +:+ ": " +:+ dq +:+ exn_msg e
          +:+ dq +:+ "}" +:+ nl).

(** The generator of [v1_generate]. *)
Definition generate (data : json) : G unit :=
  try_except
    (resp <- in_world (requests_stream E
               (Call "POST" (SHIMMY_URL +:+ "/api/generate") (Some data) true 300)) ;;
     relay id (iter_content resp) ;;
     end_of_stream resp)%M
    (fun e =>
       if is_Exception e then Some (yield (Bytes (error_chunk e)))
       else None).

Definition v1_generate (request_json : result json) : M response :=
  try_except
    (data <- lift request_json ;;
     _ <- lift (py_get data "model" (JStr "unknown")) ;;
     is_stream <- lift (py_get data "stream" (JBool false)) ;;
     if truthy is_stream then
       ret (StreamResponse "application/x-ndjson" (generate data))
     else
       resp <- requests E
                 (Call "POST" (SHIMMY_URL +:+ "/api/generate") (Some data) false 300) ;;
       body <- lift (resp_json resp) ;;
       ret (JsonResponse body (status_code resp)))%M
    (fun e =>
       if is_RequestException e then Some (ret (JsonResponse (error_body e) 500))
       else if is_Exception e then Some (ret (JsonResponse (error_body e) 500))
       else None).

Definition v1_models : M response :=
  try_except
    (resp <- requests E (Call "GET" (SHIMMY_URL +:+ "/v1/models") None false 5) ;;
     body <- lift (resp_json resp) ;;
     ret (JsonResponse body (status_code resp)))%M
    (fun e =>
       if is_RequestException e then Some (ret (JsonResponse (error_body e) 500))
       else None).

(** The dict [shimmy_request] of [v1_completions]. *)
Definition shimmy_request (data : json) : result json :=
  (prompt <- extract_prompt data ;;
   model <- py_get data "model" (JStr "") ;;
   stream <- py_get data "stream" (JBool false) ;;
   temperature <- py_get data "temperature" (JFloat 0.7) ;;
   max_tokens <- py_get data "max_tokens" (JInt 512) ;;
   Ok (JObj {[ "model" := model;
               "prompt" := prompt;
               "stream" := stream;
               "temperature" := temperature;
               "max_tokens" := max_tokens ]}))%py.

Definition v1_completions (request_json : result json) : M response :=
  try_except
    (data <- lift request_json ;;
     body <- lift (shimmy_request data) ;;
     resp <- requests E
               (Call "POST" (SHIMMY_URL +:+ "/api/generate") (Some body) false 300) ;;
     answer <- lift (resp_json resp) ;;
     ret (JsonResponse answer (status_code resp)))%M
    (fun e =>
       if is_Exception e then Some (ret (JsonResponse (error_body e) 500))
       else None).

Definition root : M response :=
  ret (JsonResponse
         (JObj {[ "service" := JStr "Shimmy Lightweight Proxy";
                  "status" := JStr "running";
                  "version" := JStr "1.0.0";
                  "endpoints" := JObj {[ "health" := JStr "/v1/health";
                                         "generate" := JStr "/v1/generate";
                                         "models" := JStr "/v1/models";
                                         "completions" := JStr "/v1/completions" ]} ]})
         200).
End Routes.
End Lightweight.

#[global] Instance byte_eq_dec : EqDecision Byte.byte := Byte.byte_eq_dec.

(** ** model-downloader-proxy.py *)
Module Downloader.
Section Routes.
Context `{PyRuntime} (E : env).

Definition SHIMMY_URL : string := "http://localhost:8081".
Definition MODELS_DIR : string := "/models".

(** [open(filepath, 'rb')] then [f.read(4)]. *)
Definition read_magic (filepath : string) : M bytes :=
  fun w =>
    match fs w !! filepath with
    | Some content => (Ok (take 4 content), w)
    | None =>
        (Raise (Exn OSError ("No such file or directory: " +:+ filepath)), w)
    end.

Definition check_gguf_file (filepath : string) : M bool :=
  try_except
    (magic <- read_magic filepath ;;
     ret (bool_decide (magic = encode "GGUF")
          || bool_decide (magic = encode "GGML")))%M
    (fun e => if is_Exception e then Some (ret false) else None).

Definition trigger_shimmy_discover_and_restart : M bool :=
  try_except
    (result <- subprocess_run E ["shimmy"; "discover"] ;;
     if negb (returncode result =? 0)%Z then ret false
     else
       try_except
         (find_proc <- subprocess_run E ["pgrep"; "-f"; "shimmy serve"] ;;
          if (returncode find_proc =? 0)%Z
             && negb (String.eqb (py_strip (stdout find_proc)) "")
          then
            match py_first_int (py_strip (stdout find_proc)) with
            | Some pid =>
                subprocess_run E ["kill"; "-TERM"; pretty pid] ;;
                ret true
            | None => raise (Exn OtherException "invalid literal for int()")
            end
          else ret true)
         (fun e => if is_Exception e then Some (ret true) else None))%M
    (fun e => if is_Exception e then Some (ret false) else None).

Definition status_error (msg : string) : json :=
  JObj {[ "status" := JStr "error"; "error" := JStr msg ]}.

(** The generator of [pull_model]. *)
Definition generate (model_repo filename : json) : G unit :=
  try_finally
    (try_except
       (yield (Event (Starting model_repo filename)) ;;
        in_world (os_makedirs E MODELS_DIR) ;;
        local_path <- in_world (hf_hub_download E model_repo filename MODELS_DIR) ;;
        valid <- in_world (check_gguf_file local_path) ;;
        if negb valid then
          in_world (os_remove local_path) ;;
          yield (Event (Error "Downloaded file is not a valid GGUF/GGML model"))
        else
          file_size <- in_world (os_path_getsize local_path) ;;
          let size_mb := py_round (py_truediv file_size (1024 * 1024)) 2 in
          discover_success <- in_world trigger_shimmy_discover_and_restart ;;
          yield (Event (Complete filename local_path size_mb discover_success)))%M
       (fun e =>
          if is_HfHubHTTPError e then
            Some (yield (Event (Error ("HuggingFace error: " +:+ exn_msg e))))
          else if is_Exception e then
            Some (yield (Event (Error ("Download failed: " +:+ exn_msg e))))
          else None))
    (in_world (put_job idle)).

(** [with download_lock:] makes the test of [in_progress] and the three
    assignments one step; nothing before it reads or writes shared
    state, so the whole view function is one step of the world. *)
Definition pull_model (request_json : result json) : M response :=
  try_except
    (data <- lift request_json ;;
     if negb (truthy data) then
       ret (JsonResponse (status_error "Request body required") 400)
     else
       model_repo <- lift (py_get data "model" JNull) ;;
       filename <- lift (py_get data "filename" JNull) ;;
       if negb (truthy model_repo) || negb (truthy filename) then
         ret (JsonResponse
                (status_error "Both 'model' and 'filename' are required") 400)
       else
         job <- get_job ;;
         if in_progress job then
           ret (JsonResponse
                  (status_error ("Download already in progress: "
                                 +:+ py_str (job_model job) +:+ "/"
                                 +:+ py_str (job_filename job))) 409)
         else
           put_job (Job true model_repo filename) ;;
           ret (StreamResponse "application/x-ndjson"
                  (generate model_repo filename)))%M
    (fun e =>
       if is_Exception e then
         Some (put_job idle ;;
               ret (JsonResponse (status_error (exn_msg e)) 500))%M
       else None).

(** The other routes have the text of lightweight-proxy.py. *)
Definition v1_health : M response := Lightweight.v1_health E.
Definition v1_generate : result json -> M response := Lightweight.v1_generate E.
Definition v1_models : M response := Lightweight.v1_models E.
Definition shimmy_request : json -> result json := Lightweight.shimmy_request.
Definition v1_completions : result json -> M response :=
  Lightweight.v1_completions E.

(** The [download_status] entry of the root route's answer. *)
Definition download_status : M json :=
  (job <- get_job ;;
   ret (JObj {[ "in_progress" := JBool (in_progress job);
                "current_model" := job_model job;
                "current_filename" := job_filename job ]}))%M.

Definition root : M response :=
  (job <- get_job ;;
   ret (JsonResponse
          (JObj {[ "service" := JStr "Shimmy Enhanced Proxy with Model Download";
                   "status" := JStr "running";
                   "version" := JStr "2.0.0";
                   "endpoints" := JObj {[ "health" := JStr "/v1/health";
                                          "generate" := JStr "/v1/generate";
                                          "models" := JStr "/v1/models";
                                          "completions" := JStr "/v1/completions";
                                          "pull" := JStr "/v1/api/pull" ]};
                   "download_status" :=
                     JObj {[ "in_progress" := JBool (in_progress job);
                             "current_model" := job_model job;
                             "current_filename" := job_filename job ]} ]})
          200))%M.
End Routes.
End Downloader.

(** ** proxy-wrapper.py *)

(** [hash(v)]: lists and dicts are unhashable. *)
Definition hash_of `{PyRuntime} (v : json) : result Z :=
  match v with
  | JArr _ | JObj _ =>
      Raise (Exn TypeError ("unhashable type: '" +:+ py_type_name v +:+ "'"))
  | _ => Ok (py_hash v)
  end.

Definition as_int (v : json) : option Z :=
  match v with
  | JInt n => Some n
  | JBool b => Some (if b then 1 else 0)
  | _ => None
  end.

Definition as_float `{PyRuntime} (v : json) : option (option float) :=
  match v with
  | JFloat f => Some (Some f)
  | _ => py_float_of_int <$> as_int v
  end.

(** [a + b] on the values a JSON document can hold. A str or a list on
    the left concatenates, and says so when the right operand is of
    another type; the other mismatches are unsupported operands. *)
Definition py_add `{PyRuntime} (a b : json) : result json :=
  let type_error :=
    Raise (Exn TypeError ("unsupported operand type(s) for +: '"
                          +:+ py_type_name a +:+ "' and '"
                          +:+ py_type_name b +:+ "'")) in
  let concatenate_error :=
    Raise (Exn TypeError ("can only concatenate " +:+ py_type_name a
                          +:+ " (not " +:+ dq +:+ py_type_name b +:+ dq
                          +:+ ") to " +:+ py_type_name a)) in
  match a, b with
  | JStr s, JStr t => Ok (JStr (s +:+ t))
  | JArr l, JArr k => Ok (JArr (l ++ k))
  | JStr _, _ | JArr _, _ => concatenate_error
  | _, _ =>
      match as_int a, as_int b with
      | Some n, Some m => Ok (JInt (n + m))
      | _, _ =>
          match as_float a, as_float b with
          | Some (Some x), Some (Some y) => Ok (JFloat (x + y)%float)
          | Some None, Some _ | Some _, Some None =>
              Raise (Exn OtherException "int too large to convert to float")
          | _, _ => type_error
          end
      end
  end.

Module Wrapper.
Section Routes.
Context `{PyRuntime} (E : env).

Definition SHIMMY_URL : string := "http://localhost:8080".

Definition v1_health : M response :=
  try_except
    (resp <- requests E (Call "GET" (SHIMMY_URL +:+ "/health") None false 5) ;;
     body <- lift (resp_json resp) ;;
     ret (JsonResponse body (status_code resp)))%M
    (fun e =>
       if is_Exception e then
         Some (ret (JsonResponse
                      (JObj {[ "status" := JStr "error";
                               "message" := JStr (exn_msg e) ]}) 503))
       else None).

(** The dict [shimmy_request] of [v1_completions]. *)
Definition shimmy_request (data : json) : result json :=
  (prompt <- extract_prompt data ;;
   model <- py_get data "model" (JStr "phi3-lora") ;;
   stream <- py_get data "stream" (JBool false) ;;
   temperature <- py_get data "temperature" (JFloat 0.7) ;;
   max_tokens <- py_get data "max_tokens" (JInt 512) ;;
   top_p <- py_get data "top_p" (JFloat 1.0) ;;
   frequency_penalty <- py_get data "frequency_penalty" (JFloat 0.0) ;;
   presence_penalty <- py_get data "presence_penalty" (JFloat 0.0) ;;
   Ok (JObj {[ "model" := model;
               "prompt" := prompt;
               "stream" := stream;
               "temperature" := temperature;
               "max_tokens" := max_tokens;
               "top_p" := top_p;
               "frequency_penalty" := frequency_penalty;
               "presence_penalty" := presence_penalty ]}))%py.

(** The generator of [v1_completions]: no [try] around the relay. *)
Definition generate (shimmy_request : json) : G unit :=
  (resp <- in_world (requests_stream E
             (Call "POST" (SHIMMY_URL +:+ "/api/generate")
                   (Some shimmy_request) true 300)) ;;
   relay (fun line => line ++ encode nl) (iter_lines resp) ;;
   end_of_stream resp)%M.

(** The chat envelope [openai_resp], built when ['messages' in data]. *)
Definition chat_completion (data shimmy_resp : json) : result json :=
  (response <- py_get shimmy_resp "response" (JStr "") ;;
   h <- hash_of response ;;
   model <- py_get data "model" (JStr "phi3-lora") ;;
   content <- py_get shimmy_resp "response" (JStr "") ;;
   prompt_tokens <- py_get shimmy_resp "prompt_eval_count" (JInt 0) ;;
   completion_tokens <- py_get shimmy_resp "eval_count" (JInt 0) ;;
   p <- py_get shimmy_resp "prompt_eval_count" (JInt 0) ;;
   c <- py_get shimmy_resp "eval_count" (JInt 0) ;;
   total_tokens <- py_add p c ;;
   Ok (JObj {[
     "id" := JStr ("chatcmpl-" +:+ pretty h);
     "object" := JStr "chat.completion";
     "created" := JInt now;
     "model" := model;
     "choices" := JArr [ JObj {[
        "index" := JInt 0;
        "message" := JObj {[ "role" := JStr "assistant";
                             "content" := content ]};
        "finish_reason" := JStr "stop" ]} ];
     "usage" := JObj {[ "prompt_tokens" := prompt_tokens;
                        "completion_tokens" := completion_tokens;
                        "total_tokens" := total_tokens ]} ]}))%py.

(** The text envelope, built otherwise. *)
Definition text_completion (data shimmy_resp : json) : result json :=
  (response <- py_get shimmy_resp "response" (JStr "") ;;
   h <- hash_of response ;;
   model <- py_get data "model" (JStr "phi3-lora") ;;
   text <- py_get shimmy_resp "response" (JStr "") ;;
   Ok (JObj {[
     "id" := JStr ("cmpl-" +:+ pretty h);
     "object" := JStr "text_completion";
     "created" := JInt now;
     "model" := model;
     "choices" := JArr [ JObj {[
        "text" := text;
        "index" := JInt 0;
        "finish_reason" := JStr "stop" ]} ] ]}))%py.

Definition proxy_error (e : exn) : json :=
  JObj {[ "error" := JObj {[ "message" := JStr (exn_msg e);
                             "type" := JStr "internal_error";
                             "code" := JStr "proxy_error" ]} ]}.

Definition v1_completions (request_json : result json) : M response :=
  try_except
    (data <- lift request_json ;;
     _ <- lift (py_get data "model" JNull) ;;
     shimmy_request <- lift (shimmy_request data) ;;
     stream <- lift (py_get shimmy_request "stream" JNull) ;;
     if truthy stream then
       ret (StreamResponse "text/event-stream" (generate shimmy_request))
     else
       resp <- requests E
                 (Call "POST" (SHIMMY_URL +:+ "/api/generate")
                       (Some shimmy_request) false 300) ;;
       shimmy_resp <- lift (resp_json resp) ;;
       has_messages <- lift (py_in "messages" data) ;;
       openai_resp <- lift (if (has_messages : bool)
                            then chat_completion data shimmy_resp
                            else text_completion data shimmy_resp) ;;
       ret (JsonResponse openai_resp (status_code resp)))%M
    (fun e =>
       if is_Exception e then Some (ret (JsonResponse (proxy_error e) 500))
       else None).

Definition v1_models : M response :=
  try_except
    (resp <- requests E (Call "GET" (SHIMMY_URL +:+ "/v1/models") None false 5) ;;
     body <- lift (resp_json resp) ;;
     ret (JsonResponse body (status_code resp)))%M
    (fun e =>
       if is_Exception e then
         Some (ret (JsonResponse (JObj {[ "error" := JStr (exn_msg e) ]}) 500))
       else None).

End Routes.
End Wrapper.

(** The text of an event, as the f-strings of [pull_model.generate] write
    it (no JSON escaping of the inserted values). *)
Definition render_event `{PyRuntime} (e : DownloadEvent) : string :=
  match e with
  | Starting model_repo filename =>
      "{" +:+ dq +:+ "status" +:+ dq +:+ ": " +:+ dq +:+ "starting" +:+ dq
      +:+ ", " +:+ dq +:+ "model" +:+ dq +:+ ": " +:+ dq +:+ py_str model_repo +:+ dq
      +:+ ", " +:+ dq +:+ "filename" +:+ dq +:+ ": " +:+ dq +:+ py_str filename +:+ dq
      +:+ "}" +:+ nl
  | Complete filename local_path size_mb discover_success =>
      "{" +:+ dq +:+ "status" +:+ dq +:+ ": " +:+ dq +:+ "complete" +:+ dq
      +:+ ", " +:+ dq +:+ "filename" +:+ dq +:+ ": " +:+ dq +:+ py_str filename +:+ dq
      +:+ ", " +:+ dq +:+ "path" +:+ dq +:+ ": " +:+ dq +:+ local_path +:+ dq
      +:+ ", " +:+ dq +:+ "size_mb" +:+ dq +:+ ": " +:+ py_str (JFloat size_mb)
      +:+ ", " +:+ dq +:+ "discovered" +:+ dq +:+ ": "
      +:+ (if discover_success then "true" else "false")
      +:+ "}" +:+ nl
  | Error error_msg =>
      "{" +:+ dq +:+ "status" +:+ dq +:+ ": " +:+ dq +:+ "error" +:+ dq
      +:+ ", " +:+ dq +:+ "error" +:+ dq +:+ ": " +:+ dq +:+ error_msg +:+ dq
      +:+ "}" +:+ nl
  end.

(** ** The request shapes of the specification

    An external request is a chat request, with an ordered sequence of
    messages, or a completion request, with an optional prompt. *)

Record ChatMessage : Type := Msg { role : string; content : string }.

Inductive ExternalRequest : Type :=
  | Chat (messages : list ChatMessage)
  | Completion (prompt : option json).

(** The prompt the specification derives: the lines "role: content" in
    order, joined by a newline; or the prompt field, empty when absent. *)
Definition spec_line (m : ChatMessage) : string :=
  role m +:+ ": " +:+ content m.

Definition derived_prompt (r : ExternalRequest) : json :=
  match r with
  | Chat msgs => JStr (String.concat nl (spec_line <$> msgs))
  | Completion p => default (JStr "") p
  end.

(** What a relay passes on of the chunks it reads: the non-empty ones. *)
Definition nonempty (c : bytes) : bool :=
  match c with
  | [] => false
  | _ => true
  end.

Definition passed_on (emit : bytes -> bytes) (chunks : list bytes) : list chunk :=
  (fun c => Bytes (emit c)) <$> List.filter nonempty chunks.

(** A JSON value that carries a chat message. *)
Definition carries (v : json) (m : ChatMessage) : Prop :=
  exists o, v = JObj o
            /\ o !! "role" = Some (JStr (role m))
            /\ o !! "content" = Some (JStr (content m)).

(** A request body of the given shape. *)
Definition has_shape (d : gmap string json) (r : ExternalRequest) : Prop :=
  match r with
  | Chat msgs =>
      exists vs, d !! "messages" = Some (JArr vs) /\ Forall2 carries vs msgs
  | Completion p => d !! "messages" = None /\ d !! "prompt" = p
  end.

(** A body on which the prompt derivation has what it needs: [messages]
    absent, or a list of objects. *)
Definition is_dict (v : json) : Prop := exists o, v = JObj o.

Definition typed_messages (d : gmap string json) : Prop :=
  d !! "messages" = None
  \/ exists vs, d !! "messages" = Some (JArr vs) /\ Forall is_dict vs.

(** Reading a path of a JSON document. *)
Definition field (k : string) (v : json) : option json :=
  match v with
  | JObj m => m !! k
  | _ => None
  end.

Definition item (i : nat) (v : json) : option json :=
  match v with
  | JArr l => l !! i
  | _ => None
  end.

Inductive step : Type :=
  | Key (k : string)
  | Index (i : nat).

Fixpoint lookup_path (path : list step) (v : json) : option json :=
  match path with
  | [] => Some v
  | Key k :: rest =>
      match field k v with
      | Some v' => lookup_path rest v'
      | None => None
      end
  | Index i :: rest =>
      match item i v with
      | Some v' => lookup_path rest v'
      | None => None
      end
  end.

(** A runtime and environments to run the model on. *)
Definition test_runtime : PyRuntime := {|
  py_repr := fun _ => "?";
  py_hash := fun _ => 42;
  py_float_of_int := fun _ => None;
  py_truediv := fun _ _ => 0%float;
  py_round := fun x _ => x;
  py_strip := fun s => s;
  py_first_int := fun _ => None;
  now := 1700000000
|}.

Definition backend_down : env := {|
  send := fun _ => Raise (Exn RequestException "Connection refused");
  send_stream := fun _ => Raise (Exn RequestException "Connection refused");
  makedirs_answer := fun _ => Ok tt;
  hub_answer := fun _ _ _ => Raise (Exn HfHubHTTPError "404 Client Error");
  subprocess_answer := fun _ => Raise (Exn OSError "No such file: shimmy")
|}.

Definition backend_answers (status : Z) (body : json) : env := {|
  send := fun _ => Ok (Buffered status (Ok body));
  send_stream := fun _ => Ok (Streamed [] [] None);
  makedirs_answer := fun _ => Ok tt;
  hub_answer := fun _ _ _ => Raise (Exn HfHubHTTPError "404 Client Error");
  subprocess_answer := fun _ => Raise (Exn OSError "No such file: shimmy")
|}.

Definition hub_serves (path : string) (content : bytes) : env := {|
  send := fun _ => Raise (Exn RequestException "Connection refused");
  send_stream := fun _ => Raise (Exn RequestException "Connection refused");
  makedirs_answer := fun _ => Ok tt;
  hub_answer := fun _ _ _ => Ok (path, content);
  subprocess_answer := fun _ => Ok (Completed 0 "" "")
|}.

Definition fresh : world := World idle ∅ [].
Definition busy : world :=
  World (Job true (JStr "org/repo") (JStr "model.gguf")) ∅ [].

Definition two_messages : gmap string json :=
  {[ "messages" := JArr [
       JObj {[ "role" := JStr "system"; "content" := JStr "be brief" ]};
       JObj {[ "role" := JStr "user"; "content" := JStr "hi" ]} ] ]}.

Definition hi_request : gmap string json :=
  {[ "messages" := JArr [ JObj {[ "role" := JStr "user"; "content" := JStr "hi" ]} ];
     "stream" := JBool false ]}.

Definition hello_result : gmap string json :=
  {[ "response" := JStr "hello";
     "prompt_eval_count" := JInt 3;
     "eval_count" := JInt 2 ]}.

(** A backend whose stream delivers two chunks and then breaks. *)
Definition backend_breaks : env := {|
  send := fun _ => Raise (Exn RequestException "Connection refused");
  send_stream := fun _ =>
    Ok (Streamed [encode "{}"; encode "{}"] []
                 (Some (Exn RequestException "Connection broken")));
  makedirs_answer := fun _ => Ok tt;
  hub_answer := fun _ _ _ => Raise (Exn HfHubHTTPError "404 Client Error");
  subprocess_answer := fun _ => Raise (Exn OSError "No such file: shimmy")
|}.

Definition first_pull : gmap string json :=
  {[ "model" := JStr "org/repo"; "filename" := JStr "model.Q4_K_M.gguf" ]}.

Definition second_pull : gmap string json :=
  {[ "model" := JStr "org/other"; "filename" := JStr "other.gguf" ]}.

(** ** Vocabulary for the properties of the remaining code *)

(** Every exception the environment raises is an [Exception]: network,
    file system and sub-process failures are; [GeneratorExit], which is
    not, comes from the consumer of a generator only. *)
Definition ordinary_env (E : env) : Prop :=
  (forall c e, send E c = Raise e -> is_Exception e = true)
  /\ (forall c r e, send E c = Ok r -> resp_json r = Raise e -> is_Exception e = true)
  /\ (forall c e, send_stream E c = Raise e -> is_Exception e = true)
  /\ (forall c r e, send_stream E c = Ok r -> broken r = Some e -> is_Exception e = true)
  /\ (forall p e, makedirs_answer E p = Raise e -> is_Exception e = true)
  /\ (forall m f d e, hub_answer E m f d = Raise e -> is_Exception e = true)
  /\ (forall a e, subprocess_answer E a = Raise e -> is_Exception e = true).

(** The last event of a download. *)
Definition terminal (e : DownloadEvent) : bool :=
  match e with
  | Starting _ _ => false
  | Complete _ _ _ _ => true
  | Error _ => true
  end.

(** Whether [shimmy discover] ran and exited with 0. *)
Definition discover_exits_zero (E : env) : bool :=
  match subprocess_answer E ["shimmy"; "discover"] with
  | Ok result => (returncode result =? 0)%Z
  | Raise _ => false
  end.

(** The pid [pgrep] reported first, when it found a server process. *)
Definition server_pid `{PyRuntime} (E : env) : option Z :=
  match subprocess_answer E ["pgrep"; "-f"; "shimmy serve"] with
  | Ok find_proc =>
      if (returncode find_proc =? 0)%Z
         && negb (String.eqb (py_strip (stdout find_proc)) "")
      then py_first_int (py_strip (stdout find_proc))
      else None
  | Raise _ => None
  end.

(** The command lines [trigger_shimmy_discover_and_restart] runs, in
    order: discovery; after a successful discovery the search for the
    server; after a successful search the signal to the pid found. *)
Definition discovery_runs `{PyRuntime} (E : env) : list (list string) :=
  ["shimmy"; "discover"]
  :: (if discover_exits_zero E then
        ["pgrep"; "-f"; "shimmy serve"]
        :: match server_pid E with
           | Some pid => [["kill"; "-TERM"; pretty pid]]
           | None => []
           end
      else []).

Definition is_subprocess (e : effect) : Prop :=
  match e with
  | Subprocess _ => True
  | _ => False
  end.

(** A job record as the module keeps it: model and file name are set only
    while [in_progress] holds. *)
Definition job_consistent (j : DownloadJob) : Prop :=
  in_progress j = false -> j = idle.

(** A backend that answers a generate call with the prompt it was sent. *)
Definition echo_backend : env := {|
  send := fun c =>
    match call_json c with
    | Some (JObj body) =>
        Ok (Buffered 200 (Ok (JObj {[ "response" := default JNull (body !! "prompt") ]})))
    | _ => Raise (Exn RequestException "Connection refused")
    end;
  send_stream := fun _ => Raise (Exn RequestException "Connection refused");
  makedirs_answer := fun _ => Ok tt;
  hub_answer := fun _ _ _ => Raise (Exn HfHubHTTPError "404 Client Error");
  subprocess_answer := fun _ => Raise (Exn OSError "No such file: shimmy")
|}.

(** A backend whose stream delivers three chunks, one of them empty, and
    three lines, and ends well. *)
Definition backend_streams : env := {|
  send := fun _ => Raise (Exn RequestException "Connection refused");
  send_stream := fun _ =>
    Ok (Streamed [encode "{1}"; []; encode "{2}"]
                 [encode "a"; []; encode "b"] None);
  makedirs_answer := fun _ => Ok tt;
  hub_answer := fun _ _ _ => Raise (Exn HfHubHTTPError "404 Client Error");
  subprocess_answer := fun _ => Raise (Exn OSError "No such file: shimmy")
|}.

(** A runtime that reads the pid 4242 off any output. *)
Definition pid_runtime : PyRuntime := {|
  py_repr := fun _ => "?";
  py_hash := fun _ => 42;
  py_float_of_int := fun _ => None;
  py_truediv := fun _ _ => 0%float;
  py_round := fun x _ => x;
  py_strip := fun s => s;
  py_first_int := fun _ => Some 4242;
  now := 1700000000
|}.

(** The hub serves a file, discovery works and [pgrep] finds a process. *)
Definition all_works (path : string) (content : bytes) : env := {|
  send := fun _ => Raise (Exn RequestException "Connection refused");
  send_stream := fun _ => Raise (Exn RequestException "Connection refused");
  makedirs_answer := fun _ => Ok tt;
  hub_answer := fun _ _ _ => Ok (path, content);
  subprocess_answer := fun _ => Ok (Completed 0 "4242" "")
|}.

Definition odd_messages : list (gmap string json) :=
  [ {[ "content" := JStr "hi" ]};
    {[ "role" := JStr "tool"; "content" := JNull ]};
    {[ "role" := JInt 7 ]} ].

(** ** The JSON text of an error line (RFC 8259)

    A recogniser for a line that is a JSON object whose only member is
    "error" with a string value: what a reader of the newline-delimited
    JSON stream has to find in the relay's last chunk. *)

Definition is_ws (c : ascii) : bool :=
  let n := N_of_ascii c in
  (n =? 32)%N || (n =? 9)%N || (n =? 10)%N || (n =? 13)%N.

Fixpoint skip_ws (s : string) : string :=
  match s with
  | String c rest => if is_ws c then skip_ws rest else s
  | EmptyString => s
  end.

Fixpoint after_prefix (p s : string) : option string :=
  match p, s with
  | EmptyString, _ => Some s
  | String a p', String b s' => if Ascii.eqb a b then after_prefix p' s' else None
  | String _ _, EmptyString => None
  end.

Definition is_hex (c : ascii) : bool :=
  let n := N_of_ascii c in
  ((48 <=? n) && (n <=? 57) || (65 <=? n) && (n <=? 70)
   || (97 <=? n) && (n <=? 102))%N.

(** The characters that may follow a backslash, [u] apart. *)
Definition is_escape (c : ascii) : bool :=
  let n := N_of_ascii c in
  ((n =? 34) || (n =? 92) || (n =? 47) || (n =? 98) || (n =? 102)
   || (n =? 110) || (n =? 114) || (n =? 116))%N.

(** A character that stands for itself inside a JSON string. *)
Definition plain_char (c : ascii) : bool :=
  let n := N_of_ascii c in
  (negb (n =? 34) && negb (n =? 92) && negb (n <? 32))%N.

Fixpoint plain (s : string) : bool :=
  match s with
  | EmptyString => true
  | String c rest => plain_char c && plain rest
  end.

Inductive scan_state : Type :=
  | InText
  | AfterBackslash
  | InHex (digits_left : nat).

(** The rest of the text after the quote that closes a JSON string whose
    opening quote has been read; [None] when the string is malformed or
    never closed. *)
Fixpoint string_body (st : scan_state) (s : string) : option string :=
  match s with
  | EmptyString => None
  | String c rest =>
      match st with
      | InText =>
          if (N_of_ascii c =? 34)%N then Some rest
          else if (N_of_ascii c =? 92)%N then string_body AfterBackslash rest
          else if (N_of_ascii c <? 32)%N then None
          else string_body InText rest
      | AfterBackslash =>
          if (N_of_ascii c =? 117)%N then string_body (InHex 4) rest
          else if is_escape c then string_body InText rest
          else None
      | InHex n =>
          if is_hex c then
            match n with
            | O => None
            | S O => string_body InText rest
            | S n' => string_body (InHex n') rest
            end
          else None
      end
  end.

Definition is_error_object (line : string) : bool :=
  match
    s1 ← after_prefix "{" (skip_ws line);
    s2 ← after_prefix (dq +:+ "error" +:+ dq) (skip_ws s1);
    s3 ← after_prefix ":" (skip_ws s2);
    s4 ← after_prefix dq (skip_ws s3);
    s5 ← string_body InText s4;
    after_prefix "}" (skip_ws s5)
  with
  | Some trailing => String.eqb (skip_ws trailing) ""
  | None => false
  end.

(** The text [requests] gives a refused connection: the cause is quoted
    with double quotes. *)
Definition refused_message : string :=
  "HTTPConnectionPool(host='localhost', port=8081): Max retries exceeded with url: /api/generate (Caused by NewConnectionError("
  +:+ dq
  +:+ "HTTPConnection(host='localhost', port=8081): Failed to establish a new connection: [Errno 111] Connection refused"
  +:+ dq +:+ "))".

Definition backend_refuses : env := {|
  send := fun _ => Raise (Exn RequestException refused_message);
  send_stream := fun _ => Raise (Exn RequestException refused_message);
  makedirs_answer := fun _ => Ok tt;
  hub_answer := fun _ _ _ => Raise (Exn HfHubHTTPError "404 Client Error");
  subprocess_answer := fun _ => Raise (Exn OSError "No such file: shimmy")
|}.

(** * Properties *)

Section PromptFacts.
Context `{PyRuntime}.

Lemma message_line_carries v m :
  carries v m -> message_line v = Ok (spec_line m).
Proof.
  intros (o & -> & Hr & Hc).
  unfold message_line, spec_line. cbn. rewrite Hr, Hc. reflexivity.
Qed.

Lemma rmap_message_line vs msgs :
  Forall2 carries vs msgs ->
  rmap message_line vs = Ok (spec_line <$> msgs).
Proof.
  induction 1 as [|v m vs msgs Hv _ IH]; [reflexivity|].
  cbn. rewrite (message_line_carries _ _ Hv). cbn. rewrite IH. reflexivity.
Qed.

Lemma message_line_dict v : is_dict v -> exists s, message_line v = Ok s.
Proof. intros [o ->]. eexists. reflexivity. Qed.

Lemma rmap_message_line_total vs :
  Forall is_dict vs -> exists lines, rmap message_line vs = Ok lines.
Proof.
  induction 1 as [|v vs Hv _ [lines IH]]; [eexists; reflexivity|].
  destruct (message_line_dict _ Hv) as [s Hs].
  exists (s :: lines). cbn. rewrite Hs. cbn. rewrite IH. reflexivity.
Qed.

Lemma extract_prompt_total d :
  typed_messages d -> exists p, extract_prompt (JObj d) = Ok p.
Proof.
  intros [Hno | (vs & Hm & Hvs)]; unfold extract_prompt; cbn; rewrite ?Hno, ?Hm.
  - rewrite bool_decide_eq_false_2 by (intros [? ?]; discriminate).
    eexists. reflexivity.
  - rewrite bool_decide_eq_true_2 by eauto. cbn.
    destruct (rmap_message_line_total _ Hvs) as [lines ->].
    eexists. reflexivity.
Qed.
End PromptFacts.

(** C3. A body with N messages in order yields the prompt made of the
    lines "role: content" joined by a newline (the empty prompt for N = 0);
    a body without [messages] yields its [prompt] field as it is, or the
    empty string when that field is absent too. *)
Theorem extract_prompt_derived `{PyRuntime} (d : gmap string json) (r : ExternalRequest) :
  has_shape d r ->
  extract_prompt (JObj d) = Ok (derived_prompt r).
Proof.
  destruct r as [msgs | p]; cbn.
  - intros (vs & Hm & Hvs). unfold extract_prompt. cbn. rewrite Hm.
    rewrite bool_decide_eq_true_2 by eauto. cbn.
    rewrite (rmap_message_line _ _ Hvs). reflexivity.
  - intros [Hno Hp]. unfold extract_prompt. cbn. rewrite Hno.
    rewrite bool_decide_eq_false_2 by (intros [? ?]; discriminate).
    cbn. rewrite Hp. reflexivity.
Qed.

Lemma extract_prompt_derived_witness :
  @extract_prompt test_runtime (JObj two_messages)
  = Ok (JStr ("system: be brief" +:+ nl +:+ "user: hi")).
Proof.
  apply (@extract_prompt_derived test_runtime two_messages
           (Chat [Msg "system" "be brief"; Msg "user" "hi"])).
  eexists. split; [reflexivity|].
  repeat constructor; eexists; (split; [reflexivity|]); split; reflexivity.
Defined.

Example prompt_of_no_messages :
  @extract_prompt test_runtime (JObj {[ "messages" := JArr [] ]}) = Ok (JStr "").
Proof. reflexivity. Qed.

Example prompt_absent :
  @extract_prompt test_runtime (JObj {[ "model" := JStr "m" ]}) = Ok (JStr "").
Proof. reflexivity. Qed.

Example prompt_role_defaults_to_user :
  @extract_prompt test_runtime
    (JObj {[ "messages" := JArr [ JObj {[ "content" := JStr "hi" ]} ] ]})
  = Ok (JStr "user: hi").
Proof. reflexivity. Qed.

Example prompt_of_null_messages_raises :
  @extract_prompt test_runtime (JObj {[ "messages" := JNull ]})
  = Raise (Exn TypeError "'NoneType' object is not iterable").
Proof. reflexivity. Qed.

Section NativeRequest.
Context `{PyRuntime}.

Lemma wrapper_request_of_prompt (d : gmap string json) (prompt : json) :
  extract_prompt (JObj d) = Ok prompt ->
  Wrapper.shimmy_request (JObj d)
  = Ok (JObj {[ "model" := default (JStr "phi3-lora") (d !! "model");
                "prompt" := prompt;
                "stream" := default (JBool false) (d !! "stream");
                "temperature" := default (JFloat 0.7) (d !! "temperature");
                "max_tokens" := default (JInt 512) (d !! "max_tokens");
                "top_p" := default (JFloat 1.0) (d !! "top_p");
                "frequency_penalty" :=
                  default (JFloat 0.0) (d !! "frequency_penalty");
                "presence_penalty" :=
                  default (JFloat 0.0) (d !! "presence_penalty") ]}).
Proof. intros Hp. unfold Wrapper.shimmy_request. rewrite Hp. reflexivity. Qed.

Lemma lightweight_request_of_prompt (d : gmap string json) (prompt : json) :
  extract_prompt (JObj d) = Ok prompt ->
  Lightweight.shimmy_request (JObj d)
  = Ok (JObj {[ "model" := default (JStr "") (d !! "model");
                "prompt" := prompt;
                "stream" := default (JBool false) (d !! "stream");
                "temperature" := default (JFloat 0.7) (d !! "temperature");
                "max_tokens" := default (JInt 512) (d !! "max_tokens") ]}).
Proof. intros Hp. unfold Lightweight.shimmy_request. rewrite Hp. reflexivity. Qed.
End NativeRequest.

(** C6, as stated, fails on lightweight-proxy.py: the native request built
    from an empty body has no [top_p] entry. *)
Lemma lightweight_request_lacks_top_p :
  ~ exists native,
      @Lightweight.shimmy_request test_runtime (JObj ∅) = Ok (JObj native)
      /\ native !! "top_p" = Some (JFloat 1.0).
Proof.
  intros (native & Heq & Htop).
  vm_compute in Heq. injection Heq as <-.
  vm_compute in Htop. discriminate.
Qed.

(** C6, amended. For every body whose [messages] are absent or a list of
    objects the native request is produced. In proxy-wrapper.py it carries
    model, prompt, stream and the five sampling parameters, each with its
    default when absent (0.7, 512, 1.0, 0.0, 0.0). In lightweight-proxy.py
    and model-downloader-proxy.py it carries model, prompt, stream,
    temperature (0.7) and max_tokens (512), and no [top_p] or penalty. *)
Theorem shimmy_request_defaults `{PyRuntime} (d : gmap string json) :
  typed_messages d ->
  exists prompt native,
    extract_prompt (JObj d) = Ok prompt
    /\ Wrapper.shimmy_request (JObj d)
       = Ok (JObj {[ "model" := default (JStr "phi3-lora") (d !! "model");
                     "prompt" := prompt;
                     "stream" := default (JBool false) (d !! "stream");
                     "temperature" := default (JFloat 0.7) (d !! "temperature");
                     "max_tokens" := default (JInt 512) (d !! "max_tokens");
                     "top_p" := default (JFloat 1.0) (d !! "top_p");
                     "frequency_penalty" :=
                       default (JFloat 0.0) (d !! "frequency_penalty");
                     "presence_penalty" :=
                       default (JFloat 0.0) (d !! "presence_penalty") ]})
    /\ Lightweight.shimmy_request (JObj d) = Ok (JObj native)
    /\ Downloader.shimmy_request (JObj d) = Ok (JObj native)
    /\ native
       = {[ "model" := default (JStr "") (d !! "model");
            "prompt" := prompt;
            "stream" := default (JBool false) (d !! "stream");
            "temperature" := default (JFloat 0.7) (d !! "temperature");
            "max_tokens" := default (JInt 512) (d !! "max_tokens") ]}
    /\ native !! "top_p" = None
    /\ native !! "frequency_penalty" = None
    /\ native !! "presence_penalty" = None.
Proof.
  intros Ht. destruct (extract_prompt_total d Ht) as [prompt Hp].
  exists prompt. eexists. split; [exact Hp|].
  split; [exact (wrapper_request_of_prompt d prompt Hp)|].
  unfold Downloader.shimmy_request.
  rewrite (lightweight_request_of_prompt d prompt Hp).
  repeat split; reflexivity.
Qed.

Lemma shimmy_request_defaults_witness :
  exists prompt native,
    @extract_prompt test_runtime (JObj two_messages) = Ok prompt
    /\ @Wrapper.shimmy_request test_runtime (JObj two_messages)
       = Ok (JObj {[ "model" := JStr "phi3-lora";
                     "prompt" := prompt;
                     "stream" := JBool false;
                     "temperature" := JFloat 0.7;
                     "max_tokens" := JInt 512;
                     "top_p" := JFloat 1.0;
                     "frequency_penalty" := JFloat 0.0;
                     "presence_penalty" := JFloat 0.0 ]})
    /\ @Lightweight.shimmy_request test_runtime (JObj two_messages)
       = Ok (JObj native)
    /\ @Downloader.shimmy_request test_runtime (JObj two_messages)
       = Ok (JObj native)
    /\ native
       = {[ "model" := JStr "";
            "prompt" := prompt;
            "stream" := JBool false;
            "temperature" := JFloat 0.7;
            "max_tokens" := JInt 512 ]}
    /\ native !! "top_p" = None
    /\ native !! "frequency_penalty" = None
    /\ native !! "presence_penalty" = None.
Proof.
  apply (@shimmy_request_defaults test_runtime two_messages).
  right. eexists. split; [reflexivity|].
  repeat constructor; eexists; reflexivity.
Defined.

(** ** Health *)

(** C8, as stated, fails on proxy-wrapper.py: with the backend down its
    /v1/health answers 503, but with status "error" and the failure under
    "message". *)
Lemma wrapper_health_is_not_unhealthy :
  ~ exists body,
      (Wrapper.v1_health backend_down fresh).1 = Ok (JsonResponse (JObj body) 503)
      /\ body !! "status" = Some (JStr "unhealthy")
      /\ body !! "error" = Some (JStr "Connection refused").
Proof.
  intros (body & Heq & Hstatus & _).
  vm_compute in Heq. injection Heq as <-.
  vm_compute in Hstatus. discriminate.
Qed.

(** C8, amended. When the health call to the backend raises a
    [requests] exception (connection failure, timeout), /v1/health of
    lightweight-proxy.py and of model-downloader-proxy.py answers 503 with
    status "unhealthy" and the failure message under "error"; /v1/health of
    proxy-wrapper.py answers 503 with status "error" and the message under
    "message". *)
Theorem v1_health_backend_down (E : env) (w : world) (e : exn) :
  (forall c, send E c = Raise e) ->
  is_RequestException e = true ->
  (Lightweight.v1_health E w).1
  = Ok (JsonResponse (JObj {[ "status" := JStr "unhealthy";
                              "error" := JStr (exn_msg e) ]}) 503)
  /\ (Downloader.v1_health E w).1
     = Ok (JsonResponse (JObj {[ "status" := JStr "unhealthy";
                                 "error" := JStr (exn_msg e) ]}) 503)
  /\ (Wrapper.v1_health E w).1
     = Ok (JsonResponse (JObj {[ "status" := JStr "error";
                                 "message" := JStr (exn_msg e) ]}) 503).
Proof.
  intros Hdown Hreq.
  assert (Hexc : is_Exception e = true).
  { unfold is_RequestException in Hreq. unfold is_Exception.
    destruct (exn_cls e); [reflexivity|reflexivity|discriminate..]. }
  unfold Downloader.v1_health, Lightweight.v1_health, Wrapper.v1_health,
    try_except, bind, requests.
  rewrite !Hdown, Hreq, Hexc. repeat split.
Qed.

Lemma v1_health_backend_down_witness :
  (Lightweight.v1_health backend_down fresh).1
  = Ok (JsonResponse (JObj {[ "status" := JStr "unhealthy";
                              "error" := JStr "Connection refused" ]}) 503)
  /\ (Downloader.v1_health backend_down fresh).1
     = Ok (JsonResponse (JObj {[ "status" := JStr "unhealthy";
                                 "error" := JStr "Connection refused" ]}) 503)
  /\ (Wrapper.v1_health backend_down fresh).1
     = Ok (JsonResponse (JObj {[ "status" := JStr "error";
                                 "message" := JStr "Connection refused" ]}) 503).
Proof.
  apply (v1_health_backend_down backend_down fresh
           (Exn RequestException "Connection refused"));
    [intros c; reflexivity | reflexivity].
Defined.

(** ** Completions without response translation *)

Lemma lightweight_completions_never_streams `{PyRuntime} (E : env)
    (req : result json) (w : world) (mimetype : string) (g : G unit) :
  (Lightweight.v1_completions E req w).1 <> Ok (StreamResponse mimetype g).
Proof.
  unfold Lightweight.v1_completions, try_except, bind, lift, requests, ret.
  destruct req as [data|e]; cbn.
  - destruct (Lightweight.shimmy_request data) as [body|e]; cbn.
    + destruct (send E _) as [[status [answer|e]]|e]; cbn;
        try destruct (is_Exception e); cbn; discriminate.
    + destruct (is_Exception e); cbn; discriminate.
  - destruct (is_Exception e); cbn; discriminate.
Qed.

(** C10. In lightweight-proxy.py and model-downloader-proxy.py a
    completions request with [stream] true is forwarded with "stream": true
    in its body, by one POST made without [stream=True]; what the backend
    answers is parsed as one JSON document and returned with the backend's
    status code; the route never returns a streamed response. *)
Theorem completions_stream_is_buffered `{PyRuntime} (E : env)
    (d : gmap string json) (w : world) :
  typed_messages d ->
  d !! "stream" = Some (JBool true) ->
  exists native,
    Lightweight.shimmy_request (JObj d) = Ok (JObj native)
    /\ native !! "stream" = Some (JBool true)
    /\ Downloader.v1_completions E = Lightweight.v1_completions E
    /\ let call := Call "POST" "http://localhost:8081/api/generate"
                        (Some (JObj native)) false 300 in
       effects (Lightweight.v1_completions E (Ok (JObj d)) w).2
       = effects w ++ [Http call]
       /\ call_stream call = false
       /\ (forall status answer,
             send E call = Ok (Buffered status (Ok answer)) ->
             (Lightweight.v1_completions E (Ok (JObj d)) w).1
             = Ok (JsonResponse answer status))
       /\ (forall req w' mimetype g,
             (Lightweight.v1_completions E req w').1
             <> Ok (StreamResponse mimetype g)).
Proof.
  intros Ht Hs.
  destruct (extract_prompt_total d Ht) as [prompt Hp].
  pose proof (lightweight_request_of_prompt d prompt Hp) as Hl.
  eexists. split; [exact Hl|]. split.
  { rewrite Hs. reflexivity. }
  split; [reflexivity|]. cbn zeta. split; [|split; [reflexivity|split]].
  - unfold Lightweight.v1_completions, try_except, bind, lift, requests, ret.
    rewrite Hl. cbn.
    destruct (send E _) as [[status [answer|e]]|e]; cbn;
      try destruct (is_Exception e); reflexivity.
  - intros status answer Hsend.
    unfold Lightweight.v1_completions, try_except, bind, lift, requests, ret.
    rewrite Hl. change (Lightweight.SHIMMY_URL +:+ "/api/generate")
      with "http://localhost:8081/api/generate".
    rewrite Hsend. reflexivity.
  - intros. apply lightweight_completions_never_streams.
Qed.

Lemma completions_stream_is_buffered_witness :
  exists native,
    @Lightweight.shimmy_request test_runtime
      (JObj (<["stream" := JBool true]> two_messages)) = Ok (JObj native)
    /\ native !! "stream" = Some (JBool true)
    /\ @Downloader.v1_completions test_runtime backend_down
       = @Lightweight.v1_completions test_runtime backend_down
    /\ let call := Call "POST" "http://localhost:8081/api/generate"
                        (Some (JObj native)) false 300 in
       effects (@Lightweight.v1_completions test_runtime backend_down
                  (Ok (JObj (<["stream" := JBool true]> two_messages))) fresh).2
       = effects fresh ++ [Http call]
       /\ call_stream call = false
       /\ (forall status answer,
             send backend_down call = Ok (Buffered status (Ok answer)) ->
             (@Lightweight.v1_completions test_runtime backend_down
                (Ok (JObj (<["stream" := JBool true]> two_messages))) fresh).1
             = Ok (JsonResponse answer status))
       /\ (forall req w' mimetype g,
             (@Lightweight.v1_completions test_runtime backend_down req w').1
             <> Ok (StreamResponse mimetype g)).
Proof.
  apply (@completions_stream_is_buffered test_runtime backend_down
           (<["stream" := JBool true]> two_messages) fresh).
  - right. eexists. split; [reflexivity|].
    repeat constructor; eexists; reflexivity.
  - reflexivity.
Defined.

(** ** Completions with response translation *)

(** C4. In proxy-wrapper.py, for a request with [messages] and a falsy
    [stream], a backend result with [response], [prompt_eval_count] and
    [eval_count] comes back as a "chat.completion" envelope whose first
    choice has the response as content, role "assistant" and finish reason
    "stop", and whose usage totals the two counts. *)
Theorem chat_completion_envelope `{PyRuntime} (E : env)
    (d r : gmap string json) (w : world) (status : Z) (text : string) (p c : Z) :
  typed_messages d ->
  is_Some (d !! "messages") ->
  truthy (default (JBool false) (d !! "stream")) = false ->
  (forall call, send E call = Ok (Buffered status (Ok (JObj r)))) ->
  r !! "response" = Some (JStr text) ->
  r !! "prompt_eval_count" = Some (JInt p) ->
  r !! "eval_count" = Some (JInt c) ->
  exists envelope,
    (Wrapper.v1_completions E (Ok (JObj d)) w).1
    = Ok (JsonResponse envelope status)
    /\ lookup_path [Key "object"] envelope = Some (JStr "chat.completion")
    /\ lookup_path [Key "choices"; Index 0; Key "message"; Key "content"] envelope
       = Some (JStr text)
    /\ lookup_path [Key "choices"; Index 0; Key "message"; Key "role"] envelope
       = Some (JStr "assistant")
    /\ lookup_path [Key "choices"; Index 0; Key "finish_reason"] envelope
       = Some (JStr "stop")
    /\ lookup_path [Key "usage"; Key "total_tokens"] envelope
       = Some (JInt (p + c)).
Proof.
  intros Ht Hm Hs Hsend Hr Hp Hc.
  destruct (extract_prompt_total d Ht) as [prompt Hprompt].
  pose proof (wrapper_request_of_prompt d prompt Hprompt) as Hw.
  unfold Wrapper.v1_completions, try_except, bind, lift, requests, ret.
  cbn [py_get]. rewrite Hw.
  change (py_get (JObj ?m) "stream" JNull) with (Ok (default JNull (m !! "stream"))).
  cbn [rbind].
  match goal with
  | |- context [truthy ?v] =>
      change (truthy v) with (truthy (default (JBool false) (d !! "stream")))
  end.
  rewrite Hs, Hsend. cbn [resp_json status_code py_in].
  rewrite bool_decide_eq_true_2 by exact Hm.
  unfold Wrapper.chat_completion. cbn [py_get]. rewrite Hr, Hp, Hc.
  cbn [default rbind hash_of py_add as_int].
  eexists. split; [reflexivity|]. repeat split.
Qed.

Lemma chat_completion_envelope_witness :
  exists envelope,
    (@Wrapper.v1_completions test_runtime (backend_answers 200 (JObj hello_result))
       (Ok (JObj hi_request)) fresh).1
    = Ok (JsonResponse envelope 200)
    /\ lookup_path [Key "object"] envelope = Some (JStr "chat.completion")
    /\ lookup_path [Key "choices"; Index 0; Key "message"; Key "content"] envelope
       = Some (JStr "hello")
    /\ lookup_path [Key "choices"; Index 0; Key "message"; Key "role"] envelope
       = Some (JStr "assistant")
    /\ lookup_path [Key "choices"; Index 0; Key "finish_reason"] envelope
       = Some (JStr "stop")
    /\ lookup_path [Key "usage"; Key "total_tokens"] envelope
       = Some (JInt 5).
Proof.
  apply (@chat_completion_envelope test_runtime
           (backend_answers 200 (JObj hello_result)) hi_request hello_result
           fresh 200 "hello" 3 2).
  - right. eexists. split; [reflexivity|].
    repeat constructor; eexists; reflexivity.
  - eexists. reflexivity.
  - reflexivity.
  - intros call. reflexivity.
  - reflexivity.
  - reflexivity.
  - reflexivity.
Defined.

Example text_completion_envelope :
  exists envelope,
    (@Wrapper.v1_completions test_runtime (backend_answers 200 (JObj hello_result))
       (Ok (JObj {[ "prompt" := JStr "hi" ]})) fresh).1
    = Ok (JsonResponse envelope 200)
    /\ lookup_path [Key "object"] envelope = Some (JStr "text_completion")
    /\ lookup_path [Key "choices"; Index 0; Key "text"] envelope
       = Some (JStr "hello")
    /\ lookup_path [Key "usage"] envelope = None.
Proof. eexists. split; [reflexivity|]. repeat split. Qed.

(** ** Raw passthrough *)

Lemma relay_to_the_end (emit : bytes -> bytes) (chunks : list bytes) (g : gen_state) :
  demand g = None ->
  relay emit chunks g
  = (Ok tt, GenState (gworld g) (yielded g ++ passed_on emit chunks) None).
Proof.
  revert g. induction chunks as [|c rest IH]; intros [w out dem] Hd;
    cbn in Hd; subst dem.
  - cbn. unfold ret, passed_on. cbn. rewrite app_nil_r. reflexivity.
  - destruct c as [|b c]; cbn [relay]; unfold bind.
    + unfold ret at 1. rewrite IH by reflexivity. reflexivity.
    + unfold yield at 1. cbn [demand gworld yielded].
      rewrite IH by reflexivity.
      cbn. unfold passed_on. cbn. rewrite <- app_assoc. reflexivity.
Qed.

Lemma v1_generate_streams `{PyRuntime} (E : env) (d : gmap string json) (w : world) :
  truthy (default (JBool false) (d !! "stream")) = true ->
  Lightweight.v1_generate E (Ok (JObj d)) w
  = (Ok (StreamResponse "application/x-ndjson" (Lightweight.generate E (JObj d))), w).
Proof.
  intros Hs. unfold Lightweight.v1_generate, try_except, bind, lift, ret.
  cbn [py_get]. rewrite Hs. reflexivity.
Qed.

(** X27. When the backend call of the raw passthrough fails, at once or
    after some chunks, a consumer that reads to the end receives the
    non-empty chunks read so far, then one chunk made of the text
    {"error": " , the exception text as it is, and "} with a newline; the
    generator ends without an exception. model-downloader-proxy.py has
    the same route. *)
Theorem relay_failure_ends_with_error (E : env) (data : json) (w : world)
    (e : exn) (read : list bytes) :
  let call := Call "POST" (Lightweight.SHIMMY_URL +:+ "/api/generate")
                   (Some data) true 300 in
  is_Exception e = true ->
  (send_stream E call = Raise e /\ read = [])
  \/ (exists resp, send_stream E call = Ok resp
                   /\ iter_content resp = read /\ broken resp = Some e) ->
  run_generator (Lightweight.generate E data) None w
  = (Ok tt,
     passed_on id read
     ++ [Bytes (encode ("{" +:+ dq +:+ "error" +:+ dq +:+ ": " +:+ dq
                        +:+ exn_msg e +:+ dq +:+ "}" +:+ nl))],
     log (Http call) w)
  /\ Downloader.v1_generate E = Lightweight.v1_generate E.
Proof.
  intros call He Hfail. split; [|reflexivity].
  unfold run_generator, Lightweight.generate, try_except, bind, in_world,
    requests_stream. cbn [gworld yielded demand].
  fold call.
  destruct Hfail as [[Hsend ->] | (resp & Hsend & <- & Hbroken)]; rewrite Hsend.
  - rewrite He. reflexivity.
  - rewrite relay_to_the_end by reflexivity.
    unfold end_of_stream. rewrite Hbroken. unfold raise. rewrite He.
    reflexivity.
Qed.

Lemma relay_failure_ends_with_error_witness :
  run_generator (Lightweight.generate backend_breaks (JObj ∅)) None fresh
  = (Ok tt,
     passed_on id [encode "{}"; encode "{}"]
     ++ [Bytes (encode ("{" +:+ dq +:+ "error" +:+ dq +:+ ": " +:+ dq
                        +:+ "Connection broken" +:+ dq +:+ "}" +:+ nl))],
     log (Http (Call "POST" (Lightweight.SHIMMY_URL +:+ "/api/generate")
                     (Some (JObj ∅)) true 300)) fresh)
  /\ Downloader.v1_generate backend_breaks = Lightweight.v1_generate backend_breaks.
Proof.
  apply (relay_failure_ends_with_error backend_breaks (JObj ∅) fresh
           (Exn RequestException "Connection broken")
           [encode "{}"; encode "{}"]).
  - reflexivity.
  - right. eexists. split; [reflexivity|]. split; reflexivity.
Defined.

Example wrapper_relay_propagates :
  run_generator (Wrapper.generate backend_breaks (JObj ∅)) None fresh
  = (Raise (Exn RequestException "Connection broken"), [],
     log (Http (Call "POST" "http://localhost:8080/api/generate"
                     (Some (JObj ∅)) true 300)) fresh).
Proof. reflexivity. Qed.

(** ** The download coordinator *)

Section DownloadFacts.
Context `{PyRuntime} (E : env).

Lemma finally_releases (body : G unit) (g : gen_state) :
  current_download (gworld (try_finally body (in_world (put_job idle)) g).2)
  = idle.
Proof.
  unfold try_finally, in_world, put_job.
  destruct (body g) as [r g']. reflexivity.
Qed.

Lemma started_generator_releases (model_repo filename : json)
    (taken : option nat) (w : world) :
  taken <> Some O ->
  current_download
    (run_generator (Downloader.generate E model_repo filename) taken w).2
  = idle.
Proof.
  intros Hstarted. unfold run_generator, Downloader.generate.
  destruct taken as [[|n]|]; [congruence| |].
  - match goal with
    | |- context [try_finally ?b ?f ?g] =>
        pose proof (finally_releases b g) as Hf;
        destruct (try_finally b f g) as [r g']
    end.
    exact Hf.
  - match goal with
    | |- context [try_finally ?b ?f ?g] =>
        pose proof (finally_releases b g) as Hf;
        destruct (try_finally b f g) as [r g']
    end.
    exact Hf.
Qed.

(** What an accepted pull hands to Flask is the generator of its own
    model and file name. *)
Lemma pull_model_streams (req : result json) (w w' : world)
    (mimetype : string) (g : G unit) :
  Downloader.pull_model E req w = (Ok (StreamResponse mimetype g), w') ->
  exists model_repo filename,
    g = Downloader.generate E model_repo filename
    /\ current_download w' = Job true model_repo filename.
Proof.
  unfold Downloader.pull_model, try_except, bind, lift, ret, get_job, put_job.
  destruct req as [data|e]; cbn.
  - destruct (truthy data); cbn; [|discriminate].
    destruct (py_get data "model" JNull) as [m|e]; cbn.
    + destruct (py_get data "filename" JNull) as [f|e]; cbn.
      * destruct (truthy m), (truthy f); cbn; try discriminate.
        destruct (in_progress (current_download w)); cbn; [discriminate|].
        intros [= <- <- <-]. eexists _, _. split; reflexivity.
      * destruct (is_Exception e); cbn; discriminate.
    + destruct (is_Exception e); cbn; discriminate.
  - destruct (is_Exception e); cbn; discriminate.
Qed.
End DownloadFacts.

(** C1. Once the generator of a pull has been started, however it ends
    (completion, invalid artifact, an exception of the fetch, of the file
    system or of discovery, or the consumer closing it), the job is left
    with [in_progress] false and model and file name cleared; and the
    stream an accepted pull returns is that generator. *)
Theorem download_cleanup `{PyRuntime} (E : env) (taken : option nat) :
  taken <> Some O ->
  (forall model_repo filename w,
     current_download
       (run_generator (Downloader.generate E model_repo filename) taken w).2
     = Job false JNull JNull)
  /\ (forall req w0 w1 mimetype g w,
        Downloader.pull_model E req w0 = (Ok (StreamResponse mimetype g), w1) ->
        in_progress (current_download w1) = true
        /\ current_download (run_generator g taken w).2 = Job false JNull JNull).
Proof.
  intros Hstarted. split.
  - intros. apply started_generator_releases, Hstarted.
  - intros req w0 w1 mimetype g w Hpull.
    destruct (pull_model_streams E _ _ _ _ _ Hpull) as (m & f & -> & Hjob).
    split; [rewrite Hjob; reflexivity|].
    apply started_generator_releases, Hstarted.
Qed.

Lemma download_cleanup_witness :
  (forall model_repo filename w,
     current_download
       (run_generator
          (@Downloader.generate test_runtime
             (hub_serves "/models/x.gguf" (encode "oops")) model_repo filename)
          None w).2
     = Job false JNull JNull)
  /\ (forall req w0 w1 mimetype g w,
        @Downloader.pull_model test_runtime
          (hub_serves "/models/x.gguf" (encode "oops")) req w0
        = (Ok (StreamResponse mimetype g), w1) ->
        in_progress (current_download w1) = true
        /\ current_download (run_generator g None w).2 = Job false JNull JNull).
Proof.
  apply (@download_cleanup test_runtime
           (hub_serves "/models/x.gguf" (encode "oops")) None).
  discriminate.
Defined.

Example cleanup_after_fetch_exception :
  run_generator
    (@Downloader.generate test_runtime backend_down (JStr "org/repo") (JStr "x.gguf"))
    None busy
  = (Ok tt,
     [Event (Starting (JStr "org/repo") (JStr "x.gguf"));
      Event (Error "HuggingFace error: 404 Client Error")],
     World idle ∅ [MakeDirs "/models";
                   HubDownload (JStr "org/repo") (JStr "x.gguf") "/models"]).
Proof. reflexivity. Qed.

Example cleanup_after_success :
  run_generator
    (@Downloader.generate test_runtime
       (hub_serves "/models/x.gguf" (encode "GGUFdata"))
       (JStr "org/repo") (JStr "x.gguf"))
    None busy
  = (Ok tt,
     [Event (Starting (JStr "org/repo") (JStr "x.gguf"));
      Event (Complete (JStr "x.gguf") "/models/x.gguf" 0%float true)],
     World idle {[ "/models/x.gguf" := encode "GGUFdata" ]}
           [MakeDirs "/models";
            HubDownload (JStr "org/repo") (JStr "x.gguf") "/models";
            Subprocess ["shimmy"; "discover"];
            Subprocess ["pgrep"; "-f"; "shimmy serve"]]).
Proof. vm_compute. reflexivity. Qed.

Example cleanup_after_consumer_leaves :
  run_generator
    (@Downloader.generate test_runtime
       (hub_serves "/models/x.gguf" (encode "GGUFdata"))
       (JStr "org/repo") (JStr "x.gguf"))
    (Some 1%nat) busy
  = (Raise (Exn GeneratorExit ""),
     [Event (Starting (JStr "org/repo") (JStr "x.gguf"))],
     World idle ∅ []).
Proof. reflexivity. Qed.

Example unstarted_generator_runs_nothing :
  run_generator
    (@Downloader.generate test_runtime backend_down (JStr "org/repo") (JStr "x.gguf"))
    (Some 0%nat) busy
  = (Ok tt, [], busy).
Proof. reflexivity. Qed.

Section ArtifactFacts.
Context `{PyRuntime} (E : env).

Lemma check_gguf_file_stored (path : string) (content : bytes) (w : world) :
  fs w !! path = Some content ->
  Downloader.check_gguf_file path w
  = (Ok (bool_decide (take 4 content = encode "GGUF")
         || bool_decide (take 4 content = encode "GGML")), w).
Proof.
  intros Hfile.
  unfold Downloader.check_gguf_file, try_except, bind, Downloader.read_magic.
  rewrite Hfile. reflexivity.
Qed.
End ArtifactFacts.

(** C5. When the fetch has stored an artifact whose first four bytes are
    neither "GGUF" nor "GGML", the generator removes that file, yields the
    starting event and then an error event and nothing else, and runs no
    sub-process: discovery is not invoked and no complete event goes out.
    The consumer is one that reads past the starting event, so that the
    fetch takes place. *)
Theorem invalid_artifact_is_deleted `{PyRuntime} (E : env)
    (model_repo filename : json) (path : string) (content : bytes)
    (taken : option nat) (w : world) :
  makedirs_answer E Downloader.MODELS_DIR = Ok tt ->
  hub_answer E model_repo filename Downloader.MODELS_DIR = Ok (path, content) ->
  take 4 content <> encode "GGUF" ->
  take 4 content <> encode "GGML" ->
  taken <> Some 0%nat ->
  taken <> Some 1%nat ->
  exists r w',
    run_generator (Downloader.generate E model_repo filename) taken w
    = (r,
       [Event (Starting model_repo filename);
        Event (Error "Downloaded file is not a valid GGUF/GGML model")],
       w')
    /\ fs w' !! path = None
    /\ effects w'
       = effects w ++ [MakeDirs Downloader.MODELS_DIR;
                       HubDownload model_repo filename Downloader.MODELS_DIR;
                       Remove path]
    /\ current_download w' = idle.
Proof.
  intros Hdir Hhub Hgguf Hggml H0 H1.
  assert (Hcheck : forall w0 : world,
    Downloader.check_gguf_file path
      (set_fs (<[path:=content]> (fs w0)) w0)
    = (Ok false, set_fs (<[path:=content]> (fs w0)) w0)).
  { intros w0. rewrite (check_gguf_file_stored path content).
    - rewrite !bool_decide_eq_false_2 by assumption. reflexivity.
    - cbn. apply lookup_insert_eq. }
  destruct taken as [[|[|n]]|]; [congruence|congruence| |].
  - unfold run_generator, Downloader.generate, try_finally, try_except, bind,
      in_world, os_makedirs, hf_hub_download, put_job.
    cbn [yield demand gworld yielded app].
    rewrite Hdir. cbn [gworld yielded demand]. rewrite Hhub.
    cbn [gworld yielded demand]. rewrite Hcheck. cbn [negb gworld yielded demand].
    unfold os_remove. cbn [fs set_fs log]. rewrite lookup_insert_eq.
    cbn [gworld yielded demand].
    destruct n as [|n]; cbn.
    + eexists _, _. split; [reflexivity|].
      split; [apply lookup_delete_eq|]. split; [|reflexivity].
      cbn. rewrite <- !app_assoc. reflexivity.
    + eexists _, _. split; [reflexivity|].
      split; [apply lookup_delete_eq|]. split; [|reflexivity].
      cbn. rewrite <- !app_assoc. reflexivity.
  - unfold run_generator, Downloader.generate, try_finally, try_except, bind,
      in_world, os_makedirs, hf_hub_download, put_job.
    cbn [yield demand gworld yielded app].
    rewrite Hdir. cbn [gworld yielded demand]. rewrite Hhub.
    cbn [gworld yielded demand]. rewrite Hcheck. cbn [negb gworld yielded demand].
    unfold os_remove. cbn [fs set_fs log]. rewrite lookup_insert_eq.
    cbn.
    eexists _, _. split; [reflexivity|].
    split; [apply lookup_delete_eq|]. split; [|reflexivity].
    cbn. rewrite <- !app_assoc. reflexivity.
Qed.

Lemma invalid_artifact_is_deleted_witness :
  exists r w',
    run_generator
      (@Downloader.generate test_runtime
         (hub_serves "/models/x.gguf" (encode "<html>not a model</html>"))
         (JStr "org/repo") (JStr "x.gguf"))
      None busy
    = (r,
       [Event (Starting (JStr "org/repo") (JStr "x.gguf"));
        Event (Error "Downloaded file is not a valid GGUF/GGML model")],
       w')
    /\ fs w' !! "/models/x.gguf" = None
    /\ effects w'
       = effects busy ++ [MakeDirs Downloader.MODELS_DIR;
                          HubDownload (JStr "org/repo") (JStr "x.gguf")
                                      Downloader.MODELS_DIR;
                          Remove "/models/x.gguf"]
    /\ current_download w' = idle.
Proof.
  apply (@invalid_artifact_is_deleted test_runtime
           (hub_serves "/models/x.gguf" (encode "<html>not a model</html>"))
           (JStr "org/repo") (JStr "x.gguf") "/models/x.gguf"
           (encode "<html>not a model</html>") None busy).
  - reflexivity.
  - reflexivity.
  - vm_compute. discriminate.
  - vm_compute. discriminate.
  - discriminate.
  - discriminate.
Defined.

Example short_file_is_invalid :
  (Downloader.check_gguf_file "/models/x.gguf"
     (World idle {[ "/models/x.gguf" := encode "GG" ]} [])).1
  = Ok false.
Proof. vm_compute. reflexivity. Qed.

Example legacy_magic_is_valid :
  (Downloader.check_gguf_file "/models/x.bin"
     (World idle {[ "/models/x.bin" := encode "GGMLrest" ]} [])).1
  = Ok true.
Proof. vm_compute. reflexivity. Qed.

(** ** Accepting a pull *)

Section PullFacts.
Context `{PyRuntime} (E : env).

Lemma truthy_dict_with_key (d : gmap string json) (k : string) (v : json) :
  d !! k = Some v -> truthy (JObj d) = true.
Proof.
  intros Hk. cbn. destruct (Nat.eqb_spec (size d) 0) as [Hz|]; [|reflexivity].
  apply map_size_empty_iff in Hz. subst d. rewrite lookup_empty in Hk.
  discriminate.
Qed.

Lemma pull_model_valid (d : gmap string json) (m f : json) (w : world) :
  d !! "model" = Some m ->
  d !! "filename" = Some f ->
  truthy m = true ->
  truthy f = true ->
  Downloader.pull_model E (Ok (JObj d)) w
  = if in_progress (current_download w) then
      (Ok (JsonResponse
             (Downloader.status_error
                ("Download already in progress: "
                 +:+ py_str (job_model (current_download w)) +:+ "/"
                 +:+ py_str (job_filename (current_download w)))) 409), w)
    else
      (Ok (StreamResponse "application/x-ndjson" (Downloader.generate E m f)),
       set_job (Job true m f) w).
Proof.
  intros Hm Hf Htm Htf.
  unfold Downloader.pull_model, try_except, bind, lift, ret, get_job, put_job.
  rewrite (truthy_dict_with_key d _ _ Hm). cbn [negb py_get].
  rewrite Hm, Hf. cbn [from_option id]. rewrite Htm, Htf. cbn [negb orb].
  destruct (in_progress (current_download w)); reflexivity.
Qed.

(** The guards of the view function: a null or empty body, or an object
    without a truthy model and file name, is answered 400 and nothing
    changes. *)
Lemma pull_model_rejects_falsy_body (data : json) (w : world) :
  truthy data = false ->
  Downloader.pull_model E (Ok data) w
  = (Ok (JsonResponse (Downloader.status_error "Request body required") 400), w).
Proof.
  intros Hd.
  unfold Downloader.pull_model, try_except, bind, lift, ret.
  rewrite Hd. reflexivity.
Qed.

Lemma pull_model_rejects_missing_fields (d : gmap string json) (w : world) :
  truthy (JObj d) = true ->
  truthy (default JNull (d !! "model")) = false
  \/ truthy (default JNull (d !! "filename")) = false ->
  Downloader.pull_model E (Ok (JObj d)) w
  = (Ok (JsonResponse
           (Downloader.status_error "Both 'model' and 'filename' are required")
           400), w).
Proof.
  intros Hd Hmissing.
  unfold Downloader.pull_model, try_except, bind, lift, ret.
  rewrite Hd. cbn [negb py_get].
  destruct Hmissing as [-> | ->]; cbn [negb orb]; [reflexivity|].
  rewrite orb_true_r. reflexivity.
Qed.
End PullFacts.




Example busy_pull_is_409 :
  @Downloader.pull_model test_runtime backend_down (Ok (JObj second_pull)) busy
  = (Ok (JsonResponse
           (JObj {[ "status" := JStr "error";
                    "error" := JStr "Download already in progress: org/repo/model.gguf" ]})
           409), busy).
Proof. vm_compute. reflexivity. Qed.

(** C9 holds for a null or empty body and for an object without a truthy
    model or file name, by the two guards above. It fails for a body that
    is a non-empty JSON array: [data.get] raises, the handler of the view
    function answers 500 and clears the job, whoever set it. *)
Theorem pull_of_array_body_clears_job `{PyRuntime} (E : env)
    (v : json) (vs : list json) (w : world) :
  Downloader.pull_model E (Ok (JArr (v :: vs))) w
  = (Ok (JsonResponse
           (JObj {[ "status" := JStr "error";
                    "error" := JStr "'list' object has no attribute 'get'" ]})
           500),
     World (Job false JNull JNull) (fs w) (effects w)).
Proof. reflexivity. Qed.

Example array_body_during_download :
  @Downloader.pull_model test_runtime backend_down (Ok (JArr [JInt 1])) busy
  = (Ok (JsonResponse
           (JObj {[ "status" := JStr "error";
                    "error" := JStr "'list' object has no attribute 'get'" ]})
           500),
     fresh).
Proof. reflexivity. Qed.

Example unreadable_body_during_download :
  @Downloader.pull_model test_runtime backend_down
    (Raise (Exn OtherException "400 Bad Request")) busy
  = (Ok (JsonResponse
           (JObj {[ "status" := JStr "error";
                    "error" := JStr "400 Bad Request" ]})
           500),
     fresh).
Proof. reflexivity. Qed.

(** After that answer a third pull is accepted although the first one's
    download is still running. *)
Example second_download_starts_during_first :
  let w1 := (@Downloader.pull_model test_runtime backend_down
               (Ok (JObj first_pull)) fresh).2 in
  let w2 := (@Downloader.pull_model test_runtime backend_down
               (Ok (JArr [JInt 1])) w1).2 in
  in_progress (current_download w1) = true
  /\ in_progress (current_download w2) = false
  /\ exists g w3,
       @Downloader.pull_model test_runtime backend_down (Ok (JObj second_pull)) w2
       = (Ok (StreamResponse "application/x-ndjson" g), w3).
Proof. cbn zeta. split; [reflexivity|]. split; [reflexivity|]. eexists _, _. reflexivity. Qed.

(** * Properties of the remaining code *)

(** ** Artifact check and discovery *)

(** X1. [check_gguf_file] never raises and never changes anything; it
    answers true exactly when the file exists and its first four bytes are
    "GGUF" or "GGML" (a missing file and a file shorter than four bytes are
    invalid). *)
Theorem check_gguf_file_decides (path : string) (w : world) :
  exists valid,
    Downloader.check_gguf_file path w = (Ok valid, w)
    /\ (valid = true <->
        exists content,
          fs w !! path = Some content
          /\ (take 4 content = encode "GGUF" \/ take 4 content = encode "GGML")).
Proof.
  unfold Downloader.check_gguf_file, try_except, bind, Downloader.read_magic.
  destruct (fs w !! path) as [content|] eqn:Hfile.
  - eexists. split; [reflexivity|]. split.
    + intros Hv. exists content. split; [reflexivity|].
      apply orb_true_iff in Hv as [Hv|Hv]; apply bool_decide_eq_true in Hv; auto.
    + intros (content' & [= <-] & [Hm|Hm]); apply orb_true_iff;
        [left|right]; apply bool_decide_eq_true; exact Hm.
  - exists false. split; [reflexivity|]. split; [discriminate|].
    intros (content & [=] & _).
Qed.

Ltac close_trace := unfold log; cbn; rewrite <- ?app_assoc; reflexivity.

Section DiscoveryFacts.
Context `{PyRuntime} (E : env).
Hypothesis subprocess_ordinary :
  forall a e, subprocess_answer E a = Raise e -> is_Exception e = true.

Lemma trigger_runs (w : world) :
  Downloader.trigger_shimmy_discover_and_restart E w
  = (Ok (discover_exits_zero E),
     World (current_download w) (fs w)
           (effects w ++ (Subprocess <$> discovery_runs E))).
Proof.
  unfold Downloader.trigger_shimmy_discover_and_restart, discovery_runs,
    discover_exits_zero, server_pid, try_except, bind, subprocess_run, ret, raise.
  destruct (subprocess_answer E ["shimmy"; "discover"]) as [result|e] eqn:Hd.
  - destruct (returncode result =? 0)%Z; cbn [negb]; [|reflexivity].
    cbn [log effects fs current_download].
    destruct (subprocess_answer E ["pgrep"; "-f"; "shimmy serve"])
      as [find_proc|e] eqn:Hp.
    + destruct ((returncode find_proc =? 0)%Z
                && negb (String.eqb (py_strip (stdout find_proc)) ""));
        [|close_trace].
      destruct (py_first_int (py_strip (stdout find_proc))) as [pid|];
        [|close_trace].
      cbn [log effects fs current_download].
      destruct (subprocess_answer E ["kill"; "-TERM"; pretty pid])
        as [done|e] eqn:Hk; [close_trace|].
      rewrite (subprocess_ordinary _ _ Hk). close_trace.
    + rewrite (subprocess_ordinary _ _ Hp). close_trace.
  - rewrite (subprocess_ordinary _ _ Hd). reflexivity.
Qed.
End DiscoveryFacts.

(** X2. [trigger_shimmy_discover_and_restart] never raises; it answers
    true exactly when [shimmy discover] ran and exited with 0, whatever
    becomes of the search for the server process and of the signal; it
    touches neither the job nor the files. *)
Theorem discovery_succeeds_iff_discover_exits_zero `{PyRuntime} (E : env) (w : world) :
  (forall a e, subprocess_answer E a = Raise e -> is_Exception e = true) ->
  exists discovered w',
    Downloader.trigger_shimmy_discover_and_restart E w = (Ok discovered, w')
    /\ (discovered = true <->
        exists result,
          subprocess_answer E ["shimmy"; "discover"] = Ok result
          /\ returncode result = 0)
    /\ current_download w' = current_download w
    /\ fs w' = fs w.
Proof.
  intros Hord. rewrite (trigger_runs E Hord w).
  eexists _, _. split; [reflexivity|]. split; [|split; reflexivity].
  unfold discover_exits_zero.
  destruct (subprocess_answer E ["shimmy"; "discover"]) as [result|e].
  - rewrite Z.eqb_eq. split.
    + intros Hz. exists result. split; [reflexivity|exact Hz].
    + intros (result' & [= <-] & Hz). exact Hz.
  - split; [discriminate|]. intros (result & [=] & _).
Qed.

Lemma discovery_succeeds_iff_discover_exits_zero_witness :
  exists discovered w',
    @Downloader.trigger_shimmy_discover_and_restart test_runtime
      (all_works "/models/x.gguf" (encode "GGUFdata")) fresh
    = (Ok discovered, w')
    /\ (discovered = true <->
        exists result,
          subprocess_answer (all_works "/models/x.gguf" (encode "GGUFdata"))
            ["shimmy"; "discover"] = Ok result
          /\ returncode result = 0)
    /\ current_download w' = current_download fresh
    /\ fs w' = fs fresh.
Proof.
  apply (@discovery_succeeds_iff_discover_exits_zero test_runtime
           (all_works "/models/x.gguf" (encode "GGUFdata")) fresh).
  intros a e Hraise. vm_compute in Hraise. discriminate.
Defined.

(** X3. The sub-processes [trigger_shimmy_discover_and_restart] runs are,
    in this order: [shimmy discover]; only after it exited with 0,
    [pgrep -f "shimmy serve"]; only after that exited with 0 and printed a
    pid, one [kill -TERM] of the first pid printed. A failed discovery
    is followed by no search and no signal. *)
Theorem discovery_runs_in_order `{PyRuntime} (E : env) (w : world) :
  (forall a e, subprocess_answer E a = Raise e -> is_Exception e = true) ->
  effects (Downloader.trigger_shimmy_discover_and_restart E w).2
  = effects w
    ++ Subprocess ["shimmy"; "discover"]
       :: (if discover_exits_zero E then
             Subprocess ["pgrep"; "-f"; "shimmy serve"]
             :: match server_pid E with
                | Some pid => [Subprocess ["kill"; "-TERM"; pretty pid]]
                | None => []
                end
           else []).
Proof.
  intros Hord. rewrite (trigger_runs E Hord w). cbn [snd effects].
  unfold discovery_runs. f_equal. cbn [fmap list_fmap]. f_equal.
  destruct (discover_exits_zero E); [|reflexivity].
  cbn [fmap list_fmap]. f_equal. destruct (server_pid E); reflexivity.
Qed.

Lemma discovery_runs_in_order_witness :
  effects (@Downloader.trigger_shimmy_discover_and_restart pid_runtime
             (all_works "/models/x.gguf" (encode "GGUFdata")) fresh).2
  = effects fresh
    ++ Subprocess ["shimmy"; "discover"]
       :: (if discover_exits_zero (all_works "/models/x.gguf" (encode "GGUFdata"))
           then
             Subprocess ["pgrep"; "-f"; "shimmy serve"]
             :: match @server_pid pid_runtime
                        (all_works "/models/x.gguf" (encode "GGUFdata")) with
                | Some pid => [Subprocess ["kill"; "-TERM"; pretty pid]]
                | None => []
                end
           else []).
Proof.
  apply (@discovery_runs_in_order pid_runtime
           (all_works "/models/x.gguf" (encode "GGUFdata")) fresh).
  intros a e Hraise. vm_compute in Hraise. discriminate.
Defined.

Example discovery_signals_first_pid :
  effects (@Downloader.trigger_shimmy_discover_and_restart pid_runtime
             (all_works "/models/x.gguf" (encode "GGUFdata")) fresh).2
  = [Subprocess ["shimmy"; "discover"];
     Subprocess ["pgrep"; "-f"; "shimmy serve"];
     Subprocess ["kill"; "-TERM"; "4242"]].
Proof. vm_compute. reflexivity. Qed.

(** ** The download, path by path *)

Section DownloadPaths.
Context `{PyRuntime} (E : env) (model_repo filename : json) (w : world).

Lemma generate_makedirs_fails (e : exn) :
  makedirs_answer E Downloader.MODELS_DIR = Raise e ->
  is_Exception e = true ->
  run_generator (Downloader.generate E model_repo filename) None w
  = (Ok tt,
     [Event (Starting model_repo filename);
      Event (Error ((if is_HfHubHTTPError e then "HuggingFace error: "
                     else "Download failed: ") +:+ exn_msg e))],
     World idle (fs w) (effects w ++ [MakeDirs Downloader.MODELS_DIR])).
Proof.
  intros Hdir He.
  unfold run_generator, Downloader.generate, try_finally, try_except, bind,
    in_world, os_makedirs, put_job.
  cbn [yield demand gworld yielded app]. rewrite Hdir, He.
  destruct (is_HfHubHTTPError e); reflexivity.
Qed.

Lemma generate_fetch_fails (e : exn) :
  makedirs_answer E Downloader.MODELS_DIR = Ok tt ->
  hub_answer E model_repo filename Downloader.MODELS_DIR = Raise e ->
  is_Exception e = true ->
  run_generator (Downloader.generate E model_repo filename) None w
  = (Ok tt,
     [Event (Starting model_repo filename);
      Event (Error ((if is_HfHubHTTPError e then "HuggingFace error: "
                     else "Download failed: ") +:+ exn_msg e))],
     World idle (fs w)
           (effects w ++ [MakeDirs Downloader.MODELS_DIR;
                          HubDownload model_repo filename Downloader.MODELS_DIR])).
Proof.
  intros Hdir Hhub He.
  unfold run_generator, Downloader.generate, try_finally, try_except, bind,
    in_world, os_makedirs, hf_hub_download, put_job.
  cbn [yield demand gworld yielded app]. rewrite Hdir.
  cbn [gworld yielded demand]. rewrite Hhub, He.
  destruct (is_HfHubHTTPError e); close_trace.
Qed.

Lemma generate_invalid (path : string) (content : list Byte.byte) :
  makedirs_answer E Downloader.MODELS_DIR = Ok tt ->
  hub_answer E model_repo filename Downloader.MODELS_DIR = Ok (path, content) ->
  take 4 content <> encode "GGUF" ->
  take 4 content <> encode "GGML" ->
  run_generator (Downloader.generate E model_repo filename) None w
  = (Ok tt,
     [Event (Starting model_repo filename);
      Event (Error "Downloaded file is not a valid GGUF/GGML model")],
     World idle (delete path (fs w))
           (effects w ++ [MakeDirs Downloader.MODELS_DIR;
                          HubDownload model_repo filename Downloader.MODELS_DIR;
                          Remove path])).
Proof.
  intros Hdir Hhub Hgguf Hggml.
  unfold run_generator, Downloader.generate, try_finally, try_except, bind,
    in_world, os_makedirs, hf_hub_download, put_job.
  cbn [yield demand gworld yielded app]. rewrite Hdir.
  cbn [gworld yielded demand]. rewrite Hhub. cbn [gworld yielded demand].
  rewrite (check_gguf_file_stored path content) by (cbn; apply lookup_insert_eq).
  rewrite !bool_decide_eq_false_2 by assumption.
  cbn [orb negb gworld yielded demand].
  unfold os_remove. cbn [fs set_fs log]. rewrite lookup_insert_eq.
  cbn. rewrite delete_insert_eq. unfold set_job. cbn.
  rewrite <- !app_assoc. reflexivity.
Qed.

Lemma generate_valid (path : string) (content : list Byte.byte) :
  (forall a e, subprocess_answer E a = Raise e -> is_Exception e = true) ->
  makedirs_answer E Downloader.MODELS_DIR = Ok tt ->
  hub_answer E model_repo filename Downloader.MODELS_DIR = Ok (path, content) ->
  take 4 content = encode "GGUF" \/ take 4 content = encode "GGML" ->
  run_generator (Downloader.generate E model_repo filename) None w
  = (Ok tt,
     [Event (Starting model_repo filename);
      Event (Complete filename path
               (py_round (py_truediv (Z.of_nat (length content)) (1024 * 1024)) 2)
               (discover_exits_zero E))],
     World idle (<[path := content]> (fs w))
           (effects w ++ [MakeDirs Downloader.MODELS_DIR;
                          HubDownload model_repo filename Downloader.MODELS_DIR]
            ++ (Subprocess <$> discovery_runs E))).
Proof.
  intros Hord Hdir Hhub Hmagic.
  unfold run_generator, Downloader.generate, try_finally, try_except, bind,
    in_world, os_makedirs, hf_hub_download, put_job.
  cbn [yield demand gworld yielded app]. rewrite Hdir.
  cbn [gworld yielded demand]. rewrite Hhub. cbn [gworld yielded demand].
  rewrite (check_gguf_file_stored path content) by (cbn; apply lookup_insert_eq).
  assert (Hvalid : bool_decide (take 4 content = encode "GGUF")
                   || bool_decide (take 4 content = encode "GGML") = true).
  { apply orb_true_iff. destruct Hmagic; [left|right];
      apply bool_decide_eq_true; assumption. }
  rewrite Hvalid. cbn [negb gworld yielded demand].
  unfold os_path_getsize. cbn [fs set_fs log]. rewrite lookup_insert_eq.
  cbn [gworld yielded demand]. rewrite (trigger_runs E Hord).
  cbn. unfold set_job. cbn. rewrite <- !app_assoc. reflexivity.
Qed.
End DownloadPaths.

(** X4. A download that succeeds (directory created, file fetched, magic
    "GGUF" or "GGML") yields the starting event and then one complete
    event carrying the file name asked for, the path the fetch returned,
    the size computed from the length of the file and a [discovered] flag
    that is true exactly when [shimmy discover] exited with 0. The file
    stays where the fetch put it, no file is removed, and the job is
    released. *)
Theorem valid_download_completes `{PyRuntime} (E : env)
    (model_repo filename : json) (path : string) (content : list Byte.byte)
    (w : world) :
  (forall a e, subprocess_answer E a = Raise e -> is_Exception e = true) ->
  makedirs_answer E Downloader.MODELS_DIR = Ok tt ->
  hub_answer E model_repo filename Downloader.MODELS_DIR = Ok (path, content) ->
  take 4 content = encode "GGUF" \/ take 4 content = encode "GGML" ->
  exists w',
    run_generator (Downloader.generate E model_repo filename) None w
    = (Ok tt,
       [Event (Starting model_repo filename);
        Event (Complete filename path
                 (py_round (py_truediv (Z.of_nat (length content)) (1024 * 1024)) 2)
                 (discover_exits_zero E))],
       w')
    /\ fs w' !! path = Some content
    /\ current_download w' = Job false JNull JNull
    /\ effects w'
       = effects w ++ [MakeDirs Downloader.MODELS_DIR;
                       HubDownload model_repo filename Downloader.MODELS_DIR]
         ++ (Subprocess <$> discovery_runs E).
Proof.
  intros Hord Hdir Hhub Hmagic.
  rewrite (generate_valid E model_repo filename w path content Hord Hdir Hhub Hmagic).
  eexists. split; [reflexivity|]. split; [apply lookup_insert_eq|].
  split; reflexivity.
Qed.

Lemma valid_download_completes_witness :
  exists w',
    run_generator
      (@Downloader.generate pid_runtime
         (all_works "/models/x.gguf" (encode "GGUFdata"))
         (JStr "org/repo") (JStr "x.gguf")) None busy
    = (Ok tt,
       [Event (Starting (JStr "org/repo") (JStr "x.gguf"));
        Event (Complete (JStr "x.gguf") "/models/x.gguf"
                 (@py_round pid_runtime
                    (@py_truediv pid_runtime
                       (Z.of_nat (length (encode "GGUFdata"))) (1024 * 1024)) 2)
                 (discover_exits_zero
                    (all_works "/models/x.gguf" (encode "GGUFdata"))))],
       w')
    /\ fs w' !! "/models/x.gguf" = Some (encode "GGUFdata")
    /\ current_download w' = Job false JNull JNull
    /\ effects w'
       = effects busy
         ++ [MakeDirs Downloader.MODELS_DIR;
             HubDownload (JStr "org/repo") (JStr "x.gguf") Downloader.MODELS_DIR]
         ++ (Subprocess <$> @discovery_runs pid_runtime
                              (all_works "/models/x.gguf" (encode "GGUFdata"))).
Proof.
  apply (@valid_download_completes pid_runtime
           (all_works "/models/x.gguf" (encode "GGUFdata"))
           (JStr "org/repo") (JStr "x.gguf") "/models/x.gguf"
           (encode "GGUFdata") busy).
  - intros a e Hraise. vm_compute in Hraise. discriminate.
  - reflexivity.
  - reflexivity.
  - left. vm_compute. reflexivity.
Defined.

(** X5. When creating the directory or the fetch raises, the generator
    yields the starting event and then one error event whose message is
    "HuggingFace error: " followed by the exception text for an
    [HfHubHTTPError], "Download failed: " followed by it for any other
    exception. No file is written or removed, discovery does not run, a
    failed directory creation is followed by no fetch, and the job is
    released. *)
Theorem failed_fetch_reports_error `{PyRuntime} (E : env)
    (model_repo filename : json) (w : world) (e : exn) (done : list effect) :
  is_Exception e = true ->
  (makedirs_answer E Downloader.MODELS_DIR = Raise e
   /\ done = [MakeDirs Downloader.MODELS_DIR])
  \/ (makedirs_answer E Downloader.MODELS_DIR = Ok tt
      /\ hub_answer E model_repo filename Downloader.MODELS_DIR = Raise e
      /\ done = [MakeDirs Downloader.MODELS_DIR;
                 HubDownload model_repo filename Downloader.MODELS_DIR]) ->
  run_generator (Downloader.generate E model_repo filename) None w
  = (Ok tt,
     [Event (Starting model_repo filename);
      Event (Error ((if is_HfHubHTTPError e then "HuggingFace error: "
                     else "Download failed: ") +:+ exn_msg e))],
     World (Job false JNull JNull) (fs w) (effects w ++ done)).
Proof.
  intros He [[Hdir ->] | (Hdir & Hhub & ->)].
  - apply generate_makedirs_fails; assumption.
  - apply generate_fetch_fails; assumption.
Qed.

Lemma failed_fetch_reports_error_witness :
  run_generator
    (@Downloader.generate test_runtime backend_down (JStr "org/repo") (JStr "x.gguf"))
    None busy
  = (Ok tt,
     [Event (Starting (JStr "org/repo") (JStr "x.gguf"));
      Event (Error ((if is_HfHubHTTPError (Exn HfHubHTTPError "404 Client Error")
                     then "HuggingFace error: "
                     else "Download failed: ") +:+ "404 Client Error"))],
     World (Job false JNull JNull) (fs busy)
           (effects busy
            ++ [MakeDirs Downloader.MODELS_DIR;
                HubDownload (JStr "org/repo") (JStr "x.gguf") Downloader.MODELS_DIR])).
Proof.
  apply (@failed_fetch_reports_error test_runtime backend_down
           (JStr "org/repo") (JStr "x.gguf") busy
           (Exn HfHubHTTPError "404 Client Error")).
  - reflexivity.
  - right. split; [reflexivity|]. split; reflexivity.
Defined.

(** X6. Whatever the environment does, a download whose consumer reads to
    the end yields exactly two events, the starting event and then one
    terminal event (complete or error); the generator ends without an
    exception and the job is released. *)
Theorem download_yields_start_then_terminal `{PyRuntime} (E : env)
    (model_repo filename : json) (w : world) :
  ordinary_env E ->
  exists last w',
    run_generator (Downloader.generate E model_repo filename) None w
    = (Ok tt, [Event (Starting model_repo filename); Event last], w')
    /\ terminal last = true
    /\ current_download w' = Job false JNull JNull.
Proof.
  intros (_ & _ & _ & _ & Hdir & Hhub & Hsub).
  destruct (makedirs_answer E Downloader.MODELS_DIR) as [[]|e] eqn:Hd.
  - destruct (hub_answer E model_repo filename Downloader.MODELS_DIR)
      as [[path content]|e] eqn:Hh.
    + destruct (decide (take 4 content = encode "GGUF")) as [Hg|Hg].
      { rewrite (generate_valid E model_repo filename w path content Hsub Hd Hh
                   (or_introl Hg)).
        eexists _, _. repeat split. }
      destruct (decide (take 4 content = encode "GGML")) as [Hl|Hl].
      { rewrite (generate_valid E model_repo filename w path content Hsub Hd Hh
                   (or_intror Hl)).
        eexists _, _. repeat split. }
      rewrite (generate_invalid E model_repo filename w path content Hd Hh Hg Hl).
      eexists _, _. repeat split.
    + rewrite (generate_fetch_fails E model_repo filename w e Hd Hh (Hhub _ _ _ _ Hh)).
      eexists _, _. repeat split.
  - rewrite (generate_makedirs_fails E model_repo filename w e Hd (Hdir _ _ Hd)).
    eexists _, _. repeat split.
Qed.

Lemma download_yields_start_then_terminal_witness :
  exists last w',
    run_generator
      (@Downloader.generate test_runtime
         (hub_serves "/models/x.gguf" (encode "GGMLdata"))
         (JStr "org/repo") (JStr "x.gguf")) None busy
    = (Ok tt, [Event (Starting (JStr "org/repo") (JStr "x.gguf")); Event last], w')
    /\ terminal last = true
    /\ current_download w' = Job false JNull JNull.
Proof.
  apply (@download_yields_start_then_terminal test_runtime
           (hub_serves "/models/x.gguf" (encode "GGMLdata"))
           (JStr "org/repo") (JStr "x.gguf") busy).
  repeat split; intros; simplify_eq/=; reflexivity.
Defined.

(** X7. A consumer that closes the stream right after the starting event
    stops the download before anything is done: no directory is created,
    nothing is fetched, no file changes; the [GeneratorExit] is not turned
    into an error event, and the job is released all the same. *)
Theorem leaving_after_start_fetches_nothing `{PyRuntime} (E : env)
    (model_repo filename : json) (w : world) :
  run_generator (Downloader.generate E model_repo filename) (Some 1%nat) w
  = (Raise (Exn GeneratorExit ""),
     [Event (Starting model_repo filename)],
     World (Job false JNull JNull) (fs w) (effects w)).
Proof. reflexivity. Qed.

(** ** The pull route as a whole *)

Ltac pull_cases req data m f e w :=
  unfold Downloader.pull_model, try_except, bind, lift, ret, get_job, put_job;
  destruct req as [data|e]; cbn;
  [ destruct (truthy data); cbn;
    [ destruct (py_get data "model" JNull) as [m|e]; cbn;
      [ destruct (py_get data "filename" JNull) as [f|e]; cbn;
        [ destruct (truthy m), (truthy f); cbn;
          try destruct (in_progress (current_download w)) eqn:?; cbn
        | destruct (is_Exception e); cbn ]
      | destruct (is_Exception e); cbn ]
    | ]
  | destruct (is_Exception e); cbn ].

(** X8. The view function of the pull route starts no download itself:
    whatever the request, it makes no call, runs no sub-process and leaves
    the files alone; all it may change is the job record, and it keeps the
    record consistent (model and file name unset whenever [in_progress] is
    false). *)
Theorem pull_model_touches_only_the_job `{PyRuntime} (E : env)
    (req : result json) (w : world) :
  fs (Downloader.pull_model E req w).2 = fs w
  /\ effects (Downloader.pull_model E req w).2 = effects w
  /\ (job_consistent (current_download w) ->
      job_consistent (current_download (Downloader.pull_model E req w).2)).
Proof.
  split; [|split].
  - pull_cases req data m f e w; reflexivity.
  - pull_cases req data m f e w; reflexivity.
  - unfold job_consistent.
    pull_cases req data m f e w; intros Hw; unfold set_job; cbn;
      intros Hfalse; try reflexivity; try (apply Hw, Hfalse); congruence.
Qed.

(** X9. While a download is in progress no pull is accepted, whatever its
    body: the route never returns a stream then. *)
Theorem busy_coordinator_never_accepts `{PyRuntime} (E : env)
    (req : result json) (w : world) (mimetype : string) (g : G unit) :
  in_progress (current_download w) = true ->
  (Downloader.pull_model E req w).1 <> Ok (StreamResponse mimetype g).
Proof.
  intros Hbusy.
  pull_cases req data m f e w; discriminate.
Qed.

Lemma busy_coordinator_never_accepts_witness :
  (@Downloader.pull_model test_runtime backend_down (Ok (JObj first_pull)) busy).1
  <> Ok (StreamResponse "application/x-ndjson"
           (@Downloader.generate test_runtime backend_down
              (JStr "org/repo") (JStr "model.Q4_K_M.gguf"))).
Proof.
  apply (@busy_coordinator_never_accepts test_runtime backend_down
           (Ok (JObj first_pull)) busy).
  reflexivity.
Defined.

(** X10. The coordinator can be used again: after an accepted pull whose
    generator was started and has ended, in whatever way, the next pull
    with a truthy model and file name is accepted. *)
Theorem coordinator_accepts_again `{PyRuntime} (E : env)
    (d1 d2 : gmap string json) (m1 f1 m2 f2 : json)
    (taken : option nat) (w : world) :
  d1 !! "model" = Some m1 -> d1 !! "filename" = Some f1 ->
  truthy m1 = true -> truthy f1 = true ->
  d2 !! "model" = Some m2 -> d2 !! "filename" = Some f2 ->
  truthy m2 = true -> truthy f2 = true ->
  in_progress (current_download w) = false ->
  taken <> Some 0%nat ->
  exists g w1 w2,
    Downloader.pull_model E (Ok (JObj d1)) w
    = (Ok (StreamResponse "application/x-ndjson" g), w1)
    /\ (run_generator g taken w1).2 = w2
    /\ Downloader.pull_model E (Ok (JObj d2)) w2
       = (Ok (StreamResponse "application/x-ndjson" (Downloader.generate E m2 f2)),
          set_job (Job true m2 f2) w2).
Proof.
  intros Hm1 Hf1 Htm1 Htf1 Hm2 Hf2 Htm2 Htf2 Hidle Hstarted.
  rewrite (pull_model_valid E d1 m1 f1 w Hm1 Hf1 Htm1 Htf1), Hidle.
  eexists _, _, _. split; [reflexivity|]. split; [reflexivity|].
  rewrite (pull_model_valid E d2 m2 f2 _ Hm2 Hf2 Htm2 Htf2).
  rewrite (started_generator_releases E m1 f1 taken _ Hstarted). reflexivity.
Qed.

Lemma coordinator_accepts_again_witness :
  exists g w1 w2,
    @Downloader.pull_model test_runtime backend_down (Ok (JObj first_pull)) fresh
    = (Ok (StreamResponse "application/x-ndjson" g), w1)
    /\ (run_generator g None w1).2 = w2
    /\ @Downloader.pull_model test_runtime backend_down (Ok (JObj second_pull)) w2
       = (Ok (StreamResponse "application/x-ndjson"
                (@Downloader.generate test_runtime backend_down
                   (JStr "org/other") (JStr "other.gguf"))),
          set_job (Job true (JStr "org/other") (JStr "other.gguf")) w2).
Proof.
  apply (@coordinator_accepts_again test_runtime backend_down
           first_pull second_pull
           (JStr "org/repo") (JStr "model.Q4_K_M.gguf")
           (JStr "org/other") (JStr "other.gguf") None fresh);
    try reflexivity.
  discriminate.
Defined.

(** X11. The root route of model-downloader-proxy.py changes nothing and
    reports the job as it is: after an accepted pull, and until that
    pull's generator ends, it shows [in_progress] true with the model and
    file name of that pull. *)
Theorem root_reports_running_download `{PyRuntime} (E : env)
    (d : gmap string json) (m f : json) (w : world) :
  d !! "model" = Some m -> d !! "filename" = Some f ->
  truthy m = true -> truthy f = true ->
  in_progress (current_download w) = false ->
  exists w1 body,
    (Downloader.pull_model E (Ok (JObj d)) w).2 = w1
    /\ Downloader.root w1 = (Ok (JsonResponse body 200), w1)
    /\ lookup_path [Key "download_status"; Key "in_progress"] body
       = Some (JBool true)
    /\ lookup_path [Key "download_status"; Key "current_model"] body = Some m
    /\ lookup_path [Key "download_status"; Key "current_filename"] body = Some f.
Proof.
  intros Hm Hf Htm Htf Hidle.
  rewrite (pull_model_valid E d m f w Hm Hf Htm Htf), Hidle.
  eexists _, _. split; [reflexivity|]. split; [reflexivity|].
  repeat split.
Qed.

Lemma root_reports_running_download_witness :
  exists w1 body,
    (@Downloader.pull_model test_runtime backend_down (Ok (JObj first_pull)) fresh).2
    = w1
    /\ Downloader.root w1 = (Ok (JsonResponse body 200), w1)
    /\ lookup_path [Key "download_status"; Key "in_progress"] body
       = Some (JBool true)
    /\ lookup_path [Key "download_status"; Key "current_model"] body
       = Some (JStr "org/repo")
    /\ lookup_path [Key "download_status"; Key "current_filename"] body
       = Some (JStr "model.Q4_K_M.gguf").
Proof.
  apply (@root_reports_running_download test_runtime backend_down
           first_pull (JStr "org/repo") (JStr "model.Q4_K_M.gguf") fresh);
    reflexivity.
Defined.

(** ** The generate route *)

Lemma relay_closed_early (emit : list Byte.byte -> list Byte.byte)
    (chunks : list (list Byte.byte)) (g : gen_state) (n : nat) :
  demand g = Some (S n) ->
  relay emit chunks g
  = if decide (S n <= length (passed_on emit chunks))%nat then
      (Raise (Exn GeneratorExit ""),
       GenState (gworld g) (yielded g ++ take (S n) (passed_on emit chunks))
                (Some O))
    else
      (Ok tt,
       GenState (gworld g) (yielded g ++ passed_on emit chunks)
                (Some (S n - length (passed_on emit chunks))%nat)).
Proof.
  revert g n. induction chunks as [|c rest IH]; intros [w out dem] n Hd;
    cbn in Hd; subst dem.
  - cbn. rewrite decide_False by lia. unfold ret. cbn.
    rewrite app_nil_r. reflexivity.
  - destruct c as [|b c]; cbn [relay]; unfold bind.
    + unfold ret at 1. rewrite (IH _ n) by reflexivity. reflexivity.
    + unfold yield at 1. cbn [demand gworld yielded].
      change (passed_on emit ((b :: c) :: rest))
        with (Bytes (emit (b :: c)) :: passed_on emit rest).
      destruct n as [|n].
      * rewrite decide_True by (cbn; lia). cbn. reflexivity.
      * rewrite (IH _ n) by reflexivity. cbn [gworld yielded demand length].
        destruct (decide (S n <= length (passed_on emit rest))%nat).
        -- rewrite decide_True by lia. cbn. rewrite <- app_assoc. reflexivity.
        -- rewrite decide_False by lia. cbn. rewrite <- app_assoc. reflexivity.
Qed.

(** X12. When the backend stream ends well, the raw passthrough hands on
    every non-empty chunk, unchanged and in order, drops the empty ones,
    adds nothing (no error chunk) and makes one streamed POST of the
    request body as it came. *)
Theorem relay_passes_chunks_on (E : env) (data : json) (w : world)
    (resp : streamed) :
  let call := Call "POST" (Lightweight.SHIMMY_URL +:+ "/api/generate")
                   (Some data) true 300 in
  send_stream E call = Ok resp ->
  broken resp = None ->
  run_generator (Lightweight.generate E data) None w
  = (Ok tt,
     (fun c => Bytes c) <$> List.filter nonempty (iter_content resp),
     log (Http call) w).
Proof.
  intros call Hsend Hend.
  unfold run_generator, Lightweight.generate, try_except, bind, in_world,
    requests_stream. cbn [gworld yielded demand]. fold call. rewrite Hsend.
  rewrite relay_to_the_end by reflexivity.
  unfold end_of_stream. rewrite Hend. reflexivity.
Qed.

Lemma relay_passes_chunks_on_witness :
  run_generator (Lightweight.generate backend_streams (JObj ∅)) None fresh
  = (Ok tt,
     (fun c => Bytes c)
       <$> List.filter nonempty [encode "{1}"; []; encode "{2}"],
     log (Http (Call "POST" (Lightweight.SHIMMY_URL +:+ "/api/generate")
                     (Some (JObj ∅)) true 300)) fresh).
Proof.
  apply (relay_passes_chunks_on backend_streams (JObj ∅) fresh
           (Streamed [encode "{1}"; []; encode "{2}"]
                     [encode "a"; []; encode "b"] None));
    reflexivity.
Defined.

(** X13. A consumer of the raw passthrough that closes the stream after
    [n] chunks, with [n] at least one and at most the number of non-empty
    chunks the backend delivers, has received exactly the first [n] of
    them; the [GeneratorExit] is not caught by the relay's handler, so no
    error chunk is produced. *)
Theorem relay_closed_after_n_chunks (E : env) (data : json) (w : world)
    (resp : streamed) (n : nat) :
  let call := Call "POST" (Lightweight.SHIMMY_URL +:+ "/api/generate")
                   (Some data) true 300 in
  send_stream E call = Ok resp ->
  (1 <= n <= length (List.filter nonempty (iter_content resp)))%nat ->
  run_generator (Lightweight.generate E data) (Some n) w
  = (Raise (Exn GeneratorExit ""),
     take n ((fun c => Bytes c) <$> List.filter nonempty (iter_content resp)),
     log (Http call) w).
Proof.
  intros call Hsend [Hone Hn].
  destruct n as [|n]; [lia|].
  unfold run_generator, Lightweight.generate, try_except, bind, in_world,
    requests_stream. cbn [gworld yielded demand]. fold call. rewrite Hsend.
  rewrite (relay_closed_early id _ _ n) by reflexivity.
  rewrite decide_True by (unfold passed_on; rewrite length_fmap; exact Hn).
  reflexivity.
Qed.

Lemma relay_closed_after_n_chunks_witness :
  run_generator (Lightweight.generate backend_streams (JObj ∅)) (Some 1%nat) fresh
  = (Raise (Exn GeneratorExit ""),
     take 1 ((fun c => Bytes c)
               <$> List.filter nonempty [encode "{1}"; []; encode "{2}"]),
     log (Http (Call "POST" (Lightweight.SHIMMY_URL +:+ "/api/generate")
                     (Some (JObj ∅)) true 300)) fresh).
Proof.
  apply (relay_closed_after_n_chunks backend_streams (JObj ∅) fresh
           (Streamed [encode "{1}"; []; encode "{2}"]
                     [encode "a"; []; encode "b"] None) 1).
  - reflexivity.
  - vm_compute. split; constructor. constructor.
Defined.

(** X14. A generate request whose [stream] is absent or falsy is forwarded
    as it came: one buffered POST carrying the request body unchanged;
    the backend's JSON document and its status code, whatever it is, are
    the answer. *)
Theorem v1_generate_forwards_verbatim (E : env)
    (d : gmap string json) (w : world) (status : Z) (answer : json) :
  let call := Call "POST" (Lightweight.SHIMMY_URL +:+ "/api/generate")
                   (Some (JObj d)) false 300 in
  truthy (default (JBool false) (d !! "stream")) = false ->
  send E call = Ok (Buffered status (Ok answer)) ->
  Lightweight.v1_generate E (Ok (JObj d)) w
  = (Ok (JsonResponse answer status), log (Http call) w)
  /\ Downloader.v1_generate E (Ok (JObj d)) w
     = (Ok (JsonResponse answer status), log (Http call) w).
Proof.
  intros call Hs Hsend.
  unfold Downloader.v1_generate, Lightweight.v1_generate, try_except, bind,
    lift, ret, requests.
  cbn [py_get]. rewrite Hs. fold call. rewrite Hsend. split; reflexivity.
Qed.

Lemma v1_generate_forwards_verbatim_witness :
  Lightweight.v1_generate (backend_answers 502 (JObj hello_result))
    (Ok (JObj first_pull)) fresh
  = (Ok (JsonResponse (JObj hello_result) 502),
     log (Http (Call "POST" (Lightweight.SHIMMY_URL +:+ "/api/generate")
                     (Some (JObj first_pull)) false 300)) fresh)
  /\ Downloader.v1_generate (backend_answers 502 (JObj hello_result))
       (Ok (JObj first_pull)) fresh
     = (Ok (JsonResponse (JObj hello_result) 502),
        log (Http (Call "POST" (Lightweight.SHIMMY_URL +:+ "/api/generate")
                        (Some (JObj first_pull)) false 300)) fresh).
Proof.
  apply (v1_generate_forwards_verbatim
           (backend_answers 502 (JObj hello_result)) first_pull fresh 502
           (JObj hello_result)); reflexivity.
Defined.

(** X15. A generate request whose body is not a JSON object (null for a
    missing body, an array, a string, a number) is answered 500 with the
    attribute error as text, and the backend is not called. *)
Theorem v1_generate_rejects_non_object (E : env)
    (data : json) (w : world) :
  (forall d, data <> JObj d) ->
  Lightweight.v1_generate E (Ok data) w
  = (Ok (JsonResponse
           (JObj {[ "error" := JStr ("'" +:+ py_type_name data
                                     +:+ "' object has no attribute 'get'") ]})
           500), w).
Proof.
  intros Hnot.
  destruct data as [| | | | | |d]; try reflexivity.
  destruct (Hnot d eq_refl).
Qed.

Lemma v1_generate_rejects_non_object_witness :
  Lightweight.v1_generate backend_down (Ok JNull) fresh
  = (Ok (JsonResponse
           (JObj {[ "error" := JStr ("'" +:+ py_type_name JNull
                                     +:+ "' object has no attribute 'get'") ]})
           500), fresh).
Proof.
  apply (v1_generate_rejects_non_object backend_down JNull fresh).
  intros d. discriminate.
Defined.

(** X16. When the backend cannot be reached for a buffered generate call,
    or its answer is not JSON, the generate route answers 500 with the
    exception text under "error"; the same holds for the completions route
    of lightweight-proxy.py. *)
Theorem generate_backend_failure_is_500 `{PyRuntime} (E : env)
    (d : gmap string json) (w : world) (e : exn) :
  truthy (default (JBool false) (d !! "stream")) = false ->
  is_Exception e = true ->
  (forall c, send E c = Raise e)
  \/ (exists status, forall c, send E c = Ok (Buffered status (Raise e))) ->
  (Lightweight.v1_generate E (Ok (JObj d)) w).1
  = Ok (JsonResponse (JObj {[ "error" := JStr (exn_msg e) ]}) 500)
  /\ (typed_messages d ->
      (Lightweight.v1_completions E (Ok (JObj d)) w).1
      = Ok (JsonResponse (JObj {[ "error" := JStr (exn_msg e) ]}) 500)).
Proof.
  intros Hs He Hfail. split.
  - unfold Lightweight.v1_generate, try_except, bind, lift, ret, requests.
    cbn [py_get]. rewrite Hs.
    destruct Hfail as [Hdown | [status Hbad]].
    + rewrite Hdown, He. destruct (is_RequestException e); reflexivity.
    + rewrite Hbad. cbn. rewrite He. destruct (is_RequestException e); reflexivity.
  - intros Ht. destruct (extract_prompt_total d Ht) as [prompt Hp].
    unfold Lightweight.v1_completions, try_except, bind, lift, ret, requests.
    rewrite (lightweight_request_of_prompt d prompt Hp).
    destruct Hfail as [Hdown | [status Hbad]].
    + rewrite Hdown, He. reflexivity.
    + rewrite Hbad. cbn. rewrite He. reflexivity.
Qed.

Lemma generate_backend_failure_is_500_witness :
  (Lightweight.v1_generate backend_down (Ok (JObj two_messages)) fresh).1
  = Ok (JsonResponse (JObj {[ "error" := JStr "Connection refused" ]}) 500)
  /\ (typed_messages two_messages ->
      (@Lightweight.v1_completions test_runtime backend_down
         (Ok (JObj two_messages)) fresh).1
      = Ok (JsonResponse (JObj {[ "error" := JStr "Connection refused" ]}) 500)).
Proof.
  apply (@generate_backend_failure_is_500 test_runtime backend_down
           two_messages fresh (Exn RequestException "Connection refused")).
  - reflexivity.
  - reflexivity.
  - left. intros c. reflexivity.
Defined.

(** X17. The health and models routes hand on what the backend answers,
    body and status code, also when the status is not a success. When the
    backend's answer is not JSON and the exception is not one of
    [requests], lightweight-proxy.py lets it escape the view function,
    while proxy-wrapper.py answers 503 on the health route and 500 on the
    models route. *)
Theorem passthrough_routes (E : env) (w : world) (status : Z)
    (parsed : result json) :
  (forall c, send E c = Ok (Buffered status parsed)) ->
  match parsed with
  | Ok body =>
      (Lightweight.v1_health E w).1 = Ok (JsonResponse body status)
      /\ (Lightweight.v1_models E w).1 = Ok (JsonResponse body status)
      /\ (Wrapper.v1_health E w).1 = Ok (JsonResponse body status)
      /\ (Wrapper.v1_models E w).1 = Ok (JsonResponse body status)
  | Raise e =>
      is_Exception e = true ->
      is_RequestException e = false ->
      (Lightweight.v1_health E w).1 = Raise e
      /\ (Lightweight.v1_models E w).1 = Raise e
      /\ (Wrapper.v1_health E w).1
         = Ok (JsonResponse (JObj {[ "status" := JStr "error";
                                     "message" := JStr (exn_msg e) ]}) 503)
      /\ (Wrapper.v1_models E w).1
         = Ok (JsonResponse (JObj {[ "error" := JStr (exn_msg e) ]}) 500)
  end.
Proof.
  intros Hsend.
  unfold Lightweight.v1_health, Lightweight.v1_models, Wrapper.v1_health,
    Wrapper.v1_models, try_except, bind, lift, ret, requests.
  rewrite !Hsend. destruct parsed as [body|e]; cbn.
  - repeat split.
  - intros He Hr. rewrite He, Hr. repeat split.
Qed.

Lemma passthrough_routes_witness :
  (Lightweight.v1_health (backend_answers 500 (JObj hello_result)) fresh).1
  = Ok (JsonResponse (JObj hello_result) 500)
  /\ (Lightweight.v1_models (backend_answers 500 (JObj hello_result)) fresh).1
     = Ok (JsonResponse (JObj hello_result) 500)
  /\ (Wrapper.v1_health (backend_answers 500 (JObj hello_result)) fresh).1
     = Ok (JsonResponse (JObj hello_result) 500)
  /\ (Wrapper.v1_models (backend_answers 500 (JObj hello_result)) fresh).1
     = Ok (JsonResponse (JObj hello_result) 500).
Proof.
  apply (passthrough_routes (backend_answers 500 (JObj hello_result)) fresh 500
           (Ok (JObj hello_result))).
  intros c. reflexivity.
Defined.

(** ** proxy-wrapper.py: health, streaming and envelopes *)



Section WrapperFacts.
Context `{PyRuntime} (E : env).

Lemma prompt_of_shape (d : gmap string json) (r : ExternalRequest) :
  has_shape d r -> extract_prompt (JObj d) = Ok (derived_prompt r).
Proof.
  destruct r as [msgs | p]; cbn.
  - intros (vs & Hm & Hvs). unfold extract_prompt. cbn. rewrite Hm.
    rewrite bool_decide_eq_true_2 by eauto. cbn.
    rewrite (rmap_message_line _ _ Hvs). reflexivity.
  - intros [Hno Hp]. unfold extract_prompt. cbn. rewrite Hno.
    rewrite bool_decide_eq_false_2 by (intros [? ?]; discriminate).
    cbn. rewrite Hp. reflexivity.
Qed.

(** The view function up to the backend call, for a request that is not
    streamed. *)
Lemma wrapper_completions_buffered (d : gmap string json) (prompt : json)
    (w : world) :
  extract_prompt (JObj d) = Ok prompt ->
  truthy (default (JBool false) (d !! "stream")) = false ->
  exists native,
    Wrapper.shimmy_request (JObj d) = Ok (JObj native)
    /\ native !! "prompt" = Some prompt
    /\ Wrapper.v1_completions E (Ok (JObj d)) w
       = let call := Call "POST" (Wrapper.SHIMMY_URL +:+ "/api/generate")
                          (Some (JObj native)) false 300 in
         let answer :=
           (resp <- send E call ;;
            shimmy_resp <- resp_json resp ;;
            openai_resp <- (if bool_decide (is_Some (d !! "messages"))
                            then Wrapper.chat_completion (JObj d) shimmy_resp
                            else Wrapper.text_completion (JObj d) shimmy_resp) ;;
            Ok (JsonResponse openai_resp (status_code resp)))%py in
         (match answer with
          | Ok r => Ok r
          | Raise e =>
              if is_Exception e then Ok (JsonResponse (Wrapper.proxy_error e) 500)
              else Raise e
          end, log (Http call) w).
Proof.
  intros Hp Hs.
  pose proof (wrapper_request_of_prompt d prompt Hp) as Hw.
  eexists. split; [exact Hw|]. split; [reflexivity|].
  unfold Wrapper.v1_completions, try_except, bind, lift, requests, ret.
  cbn [py_get]. rewrite Hw.
  change (py_get (JObj ?m) "stream" JNull) with (Ok (default JNull (m !! "stream"))).
  cbn [rbind].
  match goal with
  | |- context [truthy ?v] =>
      change (truthy v) with (truthy (default (JBool false) (d !! "stream")))
  end.
  rewrite Hs. cbn zeta.
  destruct (send E _) as [[status [shimmy_resp|e]]|e]; cbn [rbind resp_json status_code py_in].
  - destruct (bool_decide (is_Some (d !! "messages")));
      [destruct (Wrapper.chat_completion (JObj d) shimmy_resp) as [o|e]
      |destruct (Wrapper.text_completion (JObj d) shimmy_resp) as [o|e]];
      cbn; try destruct (is_Exception e); reflexivity.
  - destruct (is_Exception e); reflexivity.
  - destruct (is_Exception e); reflexivity.
Qed.
End WrapperFacts.

(** X19. In proxy-wrapper.py a completions request with a truthy [stream]
    gets a "text/event-stream" response and no backend call is made before
    the stream is read. Read to the end, the stream is every non-empty
    line of the backend followed by a newline, in order and otherwise
    unchanged (no translation into an envelope); when the connection
    breaks, the exception leaves the generator and no error chunk is
    added. *)
Theorem wrapper_stream_reframes_lines `{PyRuntime} (E : env)
    (d : gmap string json) (w : world) :
  typed_messages d ->
  truthy (default (JBool false) (d !! "stream")) = true ->
  exists native,
    Wrapper.shimmy_request (JObj d) = Ok native
    /\ Wrapper.v1_completions E (Ok (JObj d)) w
       = (Ok (StreamResponse "text/event-stream" (Wrapper.generate E native)), w)
    /\ forall resp w',
         send_stream E (Call "POST" (Wrapper.SHIMMY_URL +:+ "/api/generate")
                             (Some native) true 300) = Ok resp ->
         run_generator (Wrapper.generate E native) None w'
         = (match broken resp with
            | Some e => Raise e
            | None => Ok tt
            end,
            (fun line => Bytes (line ++ encode nl))
              <$> List.filter nonempty (iter_lines resp),
            log (Http (Call "POST" (Wrapper.SHIMMY_URL +:+ "/api/generate")
                            (Some native) true 300)) w').
Proof.
  intros Ht Hs. destruct (extract_prompt_total d Ht) as [prompt Hp].
  pose proof (wrapper_request_of_prompt d prompt Hp) as Hw.
  eexists. split; [exact Hw|]. split.
  - unfold Wrapper.v1_completions, try_except, bind, lift, requests, ret.
    cbn [py_get]. rewrite Hw.
    change (py_get (JObj ?m) "stream" JNull)
      with (Ok (default JNull (m !! "stream"))).
    cbn [rbind].
    match goal with
    | |- context [truthy ?v] =>
        change (truthy v) with (truthy (default (JBool false) (d !! "stream")))
    end.
    rewrite Hs. reflexivity.
  - intros resp w' Hsend.
    unfold run_generator, Wrapper.generate, bind, in_world, requests_stream.
    cbn [gworld yielded demand]. rewrite Hsend.
    rewrite relay_to_the_end by reflexivity.
    unfold end_of_stream. destruct (broken resp); reflexivity.
Qed.

Lemma wrapper_stream_reframes_lines_witness :
  exists native,
    @Wrapper.shimmy_request test_runtime
      (JObj (<["stream" := JBool true]> two_messages)) = Ok native
    /\ @Wrapper.v1_completions test_runtime backend_streams
         (Ok (JObj (<["stream" := JBool true]> two_messages))) fresh
       = (Ok (StreamResponse "text/event-stream"
                (Wrapper.generate backend_streams native)), fresh)
    /\ forall resp w',
         send_stream backend_streams
           (Call "POST" (Wrapper.SHIMMY_URL +:+ "/api/generate")
                 (Some native) true 300) = Ok resp ->
         run_generator (Wrapper.generate backend_streams native) None w'
         = (match broken resp with
            | Some e => Raise e
            | None => Ok tt
            end,
            (fun line => Bytes (line ++ encode nl))
              <$> List.filter nonempty (iter_lines resp),
            log (Http (Call "POST" (Wrapper.SHIMMY_URL +:+ "/api/generate")
                            (Some native) true 300)) w').
Proof.
  apply (@wrapper_stream_reframes_lines test_runtime backend_streams
           (<["stream" := JBool true]> two_messages) fresh).
  - right. eexists. split; [reflexivity|].
    repeat constructor; eexists; reflexivity.
  - reflexivity.
Defined.

Example wrapper_stream_of_two_lines :
  (run_generator (Wrapper.generate backend_streams (JObj ∅)) None fresh).1
  = (Ok tt, [Bytes (encode ("a" +:+ nl)); Bytes (encode ("b" +:+ nl))]).
Proof. reflexivity. Qed.

(** X20. Round trip through proxy-wrapper.py: against a backend that
    answers a generate call with the prompt it was sent as its response, a
    request that is not streamed gets back the prompt derived from it, as
    the content of the first choice's message for a chat request and as
    the text of the first choice for a completion request. *)
Theorem echo_round_trip `{PyRuntime} (E : env) (d : gmap string json)
    (r : ExternalRequest) (s : string) (w : world) :
  has_shape d r ->
  derived_prompt r = JStr s ->
  truthy (default (JBool false) (d !! "stream")) = false ->
  (forall body,
     send E (Call "POST" (Wrapper.SHIMMY_URL +:+ "/api/generate")
                  (Some (JObj body)) false 300)
     = Ok (Buffered 200
             (Ok (JObj {[ "response" := default JNull (body !! "prompt") ]})))) ->
  exists envelope,
    (Wrapper.v1_completions E (Ok (JObj d)) w).1 = Ok (JsonResponse envelope 200)
    /\ lookup_path
         match r with
         | Chat _ => [Key "choices"; Index 0; Key "message"; Key "content"]
         | Completion _ => [Key "choices"; Index 0; Key "text"]
         end envelope
       = Some (JStr s).
Proof.
  intros Hshape Hstr Hs Hecho.
  pose proof (prompt_of_shape d r Hshape) as Hp. rewrite Hstr in Hp.
  destruct (wrapper_completions_buffered E d (JStr s) w Hp Hs)
    as (native & _ & Hprompt & ->).
  cbn zeta. rewrite Hecho, Hprompt. cbn [rbind resp_json status_code fst default].
  destruct r as [msgs|p]; cbn in Hshape.
  - destruct Hshape as (vs & Hm & _).
    rewrite bool_decide_eq_true_2 by eauto.
    eexists. split; [reflexivity|]. reflexivity.
  - destruct Hshape as [Hno _].
    rewrite bool_decide_eq_false_2 by (rewrite Hno; intros [? ?]; discriminate).
    eexists. split; [reflexivity|]. reflexivity.
Qed.

Lemma echo_round_trip_witness :
  exists envelope,
    (@Wrapper.v1_completions test_runtime echo_backend
       (Ok (JObj two_messages)) fresh).1 = Ok (JsonResponse envelope 200)
    /\ lookup_path [Key "choices"; Index 0; Key "message"; Key "content"] envelope
       = Some (JStr ("system: be brief" +:+ nl +:+ "user: hi")).
Proof.
  apply (@echo_round_trip test_runtime echo_backend two_messages
           (Chat [Msg "system" "be brief"; Msg "user" "hi"])
           ("system: be brief" +:+ nl +:+ "user: hi") fresh).
  - eexists. split; [reflexivity|].
    repeat constructor; eexists; (split; [reflexivity|]); split; reflexivity.
  - reflexivity.
  - reflexivity.
  - intros body. reflexivity.
Defined.

(** X21. In proxy-wrapper.py a request without [messages] that is not
    streamed gets a "text_completion" envelope: the backend's response
    (the empty string when the backend's answer has none) as the text of
    its single choice, index 0, finish reason "stop", the model asked for
    or "phi3-lora", an id "cmpl-" followed by the hash of the text, and no
    usage entry. The status code is the backend's, whatever it is. *)
Theorem completion_request_gets_text_envelope `{PyRuntime} (E : env)
    (d r : gmap string json) (w : world) (status : Z) (text : string) :
  d !! "messages" = None ->
  truthy (default (JBool false) (d !! "stream")) = false ->
  (forall call, send E call = Ok (Buffered status (Ok (JObj r)))) ->
  default (JStr "") (r !! "response") = JStr text ->
  (Wrapper.v1_completions E (Ok (JObj d)) w).1
  = Ok (JsonResponse
          (JObj {[ "id" := JStr ("cmpl-" +:+ pretty (py_hash (JStr text)));
                   "object" := JStr "text_completion";
                   "created" := JInt now;
                   "model" := default (JStr "phi3-lora") (d !! "model");
                   "choices" := JArr [ JObj {[ "text" := JStr text;
                                               "index" := JInt 0;
                                               "finish_reason" := JStr "stop" ]} ] ]})
          status).
Proof.
  intros Hno Hs Hsend Hresp.
  assert (Hp : extract_prompt (JObj d) = Ok (default (JStr "") (d !! "prompt"))).
  { apply (prompt_of_shape d (Completion (d !! "prompt"))). split; [exact Hno|reflexivity]. }
  destruct (wrapper_completions_buffered E d _ w Hp Hs) as (native & _ & _ & ->).
  cbn zeta. rewrite Hsend. cbn [rbind resp_json status_code fst].
  rewrite bool_decide_eq_false_2 by (rewrite Hno; intros [? ?]; discriminate).
  unfold Wrapper.text_completion. cbn [py_get]. rewrite Hresp. reflexivity.
Qed.

Lemma completion_request_gets_text_envelope_witness :
  (@Wrapper.v1_completions test_runtime
     (backend_answers 500 (JObj {[ "error" := JStr "model not loaded" ]}))
     (Ok (JObj {[ "prompt" := JStr "hi" ]})) fresh).1
  = Ok (JsonResponse
          (JObj {[ "id" := JStr ("cmpl-" +:+ pretty (@py_hash test_runtime (JStr "")));
                   "object" := JStr "text_completion";
                   "created" := JInt (@now test_runtime);
                   "model" := default (JStr "phi3-lora")
                                (({[ "prompt" := JStr "hi" ]} : gmap string json)
                                   !! "model");
                   "choices" := JArr [ JObj {[ "text" := JStr "";
                                               "index" := JInt 0;
                                               "finish_reason" := JStr "stop" ]} ] ]})
          500).
Proof.
  apply (@completion_request_gets_text_envelope test_runtime
           (backend_answers 500 (JObj {[ "error" := JStr "model not loaded" ]}))
           {[ "prompt" := JStr "hi" ]} {[ "error" := JStr "model not loaded" ]}
           fresh 500 "").
  - reflexivity.
  - reflexivity.
  - intros call. reflexivity.
  - reflexivity.
Defined.

(** X22. In proxy-wrapper.py a chat request answered by a backend object
    that has none of [response], [prompt_eval_count] and [eval_count]
    still gets a chat envelope: empty content and zero for the three token
    counts. *)
Theorem chat_envelope_defaults `{PyRuntime} (E : env)
    (d r : gmap string json) (w : world) (status : Z) :
  typed_messages d ->
  is_Some (d !! "messages") ->
  truthy (default (JBool false) (d !! "stream")) = false ->
  (forall call, send E call = Ok (Buffered status (Ok (JObj r)))) ->
  r !! "response" = None ->
  r !! "prompt_eval_count" = None ->
  r !! "eval_count" = None ->
  exists envelope,
    (Wrapper.v1_completions E (Ok (JObj d)) w).1
    = Ok (JsonResponse envelope status)
    /\ lookup_path [Key "choices"; Index 0; Key "message"; Key "content"] envelope
       = Some (JStr "")
    /\ lookup_path [Key "usage"; Key "prompt_tokens"] envelope = Some (JInt 0)
    /\ lookup_path [Key "usage"; Key "completion_tokens"] envelope = Some (JInt 0)
    /\ lookup_path [Key "usage"; Key "total_tokens"] envelope = Some (JInt 0).
Proof.
  intros Ht Hm Hs Hsend Hr Hp Hc.
  destruct (extract_prompt_total d Ht) as [prompt Hprompt].
  destruct (wrapper_completions_buffered E d prompt w Hprompt Hs)
    as (native & _ & _ & ->).
  cbn zeta. rewrite Hsend. cbn [rbind resp_json status_code fst].
  rewrite bool_decide_eq_true_2 by exact Hm.
  unfold Wrapper.chat_completion. cbn [py_get]. rewrite Hr, Hp, Hc.
  eexists. split; [reflexivity|]. repeat split.
Qed.

Lemma chat_envelope_defaults_witness :
  exists envelope,
    (@Wrapper.v1_completions test_runtime (backend_answers 200 (JObj ∅))
       (Ok (JObj hi_request)) fresh).1
    = Ok (JsonResponse envelope 200)
    /\ lookup_path [Key "choices"; Index 0; Key "message"; Key "content"] envelope
       = Some (JStr "")
    /\ lookup_path [Key "usage"; Key "prompt_tokens"] envelope = Some (JInt 0)
    /\ lookup_path [Key "usage"; Key "completion_tokens"] envelope = Some (JInt 0)
    /\ lookup_path [Key "usage"; Key "total_tokens"] envelope = Some (JInt 0).
Proof.
  apply (@chat_envelope_defaults test_runtime (backend_answers 200 (JObj ∅))
           hi_request ∅ fresh 200).
  - right. eexists. split; [reflexivity|].
    repeat constructor; eexists; reflexivity.
  - eexists. reflexivity.
  - reflexivity.
  - intros call. reflexivity.
  - reflexivity.
  - reflexivity.
  - reflexivity.
Defined.

(** X23. In proxy-wrapper.py a completions request that is not streamed
    and whose backend call fails, or whose backend answers a JSON array
    instead of an object, is answered 500 with an error object holding
    the exception text as message, type "internal_error" and code
    "proxy_error"; one backend call was made. *)
Theorem wrapper_failure_is_proxy_error `{PyRuntime} (E : env)
    (d : gmap string json) (w : world) (e : exn) :
  typed_messages d ->
  truthy (default (JBool false) (d !! "stream")) = false ->
  is_Exception e = true ->
  (forall call, send E call = Raise e)
  \/ (exists status items,
        (forall call, send E call = Ok (Buffered status (Ok (JArr items))))
        /\ e = Exn AttributeError "'list' object has no attribute 'get'") ->
  exists native,
    Wrapper.shimmy_request (JObj d) = Ok (JObj native)
    /\ Wrapper.v1_completions E (Ok (JObj d)) w
       = (Ok (JsonResponse
                (JObj {[ "error" :=
                           JObj {[ "message" := JStr (exn_msg e);
                                   "type" := JStr "internal_error";
                                   "code" := JStr "proxy_error" ]} ]})
                500),
          log (Http (Call "POST" (Wrapper.SHIMMY_URL +:+ "/api/generate")
                          (Some (JObj native)) false 300)) w).
Proof.
  intros Ht Hs He Hfail.
  destruct (extract_prompt_total d Ht) as [prompt Hprompt].
  destruct (wrapper_completions_buffered E d prompt w Hprompt Hs)
    as (native & Hn & _ & ->).
  exists native. split; [exact Hn|]. cbn zeta.
  destruct Hfail as [Hdown | (status & items & Hlist & ->)].
  - rewrite Hdown. cbn [rbind]. rewrite He. reflexivity.
  - rewrite Hlist. cbn [rbind resp_json status_code].
    destruct (bool_decide (is_Some (d !! "messages"))); reflexivity.
Qed.

Lemma wrapper_failure_is_proxy_error_witness :
  exists native,
    @Wrapper.shimmy_request test_runtime (JObj hi_request) = Ok (JObj native)
    /\ @Wrapper.v1_completions test_runtime backend_down (Ok (JObj hi_request)) fresh
       = (Ok (JsonResponse
                (JObj {[ "error" :=
                           JObj {[ "message" := JStr "Connection refused";
                                   "type" := JStr "internal_error";
                                   "code" := JStr "proxy_error" ]} ]})
                500),
          log (Http (Call "POST" (Wrapper.SHIMMY_URL +:+ "/api/generate")
                          (Some (JObj native)) false 300)) fresh).
Proof.
  apply (@wrapper_failure_is_proxy_error test_runtime backend_down hi_request
           fresh (Exn RequestException "Connection refused")).
  - right. eexists. split; [reflexivity|].
    repeat constructor; eexists; reflexivity.
  - reflexivity.
  - reflexivity.
  - left. intros call. reflexivity.
Defined.

(** ** The prompt, beyond well-formed requests *)

Section PromptEdges.
Context `{PyRuntime}.

Lemma rmap_message_line_objects (os : list (gmap string json)) :
  rmap message_line (JObj <$> os)
  = Ok ((fun o => py_str (default (JStr "user") (o !! "role")) +:+ ": "
                  +:+ py_str (default (JStr "") (o !! "content"))) <$> os).
Proof.
  induction os as [|o os IH]; [reflexivity|].
  cbn [fmap list_fmap rmap]. rewrite IH. reflexivity.
Qed.

Lemma message_line_raises_ordinary (v : json) (e : exn) :
  message_line v = Raise e -> is_Exception e = true.
Proof. destruct v; cbn; intros [= <-]; reflexivity. Qed.

Lemma rmap_message_line_raises_ordinary (vs : list json) (e : exn) :
  rmap message_line vs = Raise e -> is_Exception e = true.
Proof.
  induction vs as [|v vs IH]; cbn; [discriminate|].
  destruct (message_line v) as [line|e'] eqn:Hline; cbn.
  - destruct (rmap message_line vs) as [lines|e'']; cbn; [discriminate|].
    intros [= <-]. apply IH. reflexivity.
  - intros [= <-]. exact (message_line_raises_ordinary v e' Hline).
Qed.

Lemma extract_prompt_raises_ordinary (d : gmap string json) (e : exn) :
  extract_prompt (JObj d) = Raise e -> is_Exception e = true.
Proof.
  unfold extract_prompt. cbn [py_in py_get rbind].
  destruct (bool_decide (is_Some (d !! "messages"))); [|discriminate].
  destruct (default (JArr []) (d !! "messages")) as [| | | |s|l|m]; cbn;
    try (intros [= <-]; reflexivity).
  - destruct (rmap message_line _) as [lines|e'] eqn:Hl; cbn; [discriminate|].
    intros [= <-]. exact (rmap_message_line_raises_ordinary _ _ Hl).
  - destruct (rmap message_line l) as [lines|e'] eqn:Hl; cbn; [discriminate|].
    intros [= <-]. exact (rmap_message_line_raises_ordinary _ _ Hl).
  - destruct (rmap message_line _) as [lines|e'] eqn:Hl; cbn; [discriminate|].
    intros [= <-]. exact (rmap_message_line_raises_ordinary _ _ Hl).
Qed.
End PromptEdges.

(** X24. When a body has [messages], its [prompt] field plays no part:
    setting or changing it leaves the derived prompt, or the failure to
    derive one, as it was. *)
Theorem messages_take_precedence `{PyRuntime} (d : gmap string json) (p : json) :
  is_Some (d !! "messages") ->
  extract_prompt (JObj (<["prompt" := p]> d)) = extract_prompt (JObj d).
Proof.
  intros Hm. unfold extract_prompt. cbn [py_in py_get rbind].
  rewrite lookup_insert_ne by discriminate.
  rewrite !bool_decide_eq_true_2 by exact Hm. reflexivity.
Qed.

Lemma messages_take_precedence_witness :
  @extract_prompt test_runtime (JObj (<["prompt" := JStr "ignored"]> two_messages))
  = @extract_prompt test_runtime (JObj two_messages).
Proof.
  apply (@messages_take_precedence test_runtime two_messages (JStr "ignored")).
  eexists. reflexivity.
Defined.

(** X25. For [messages] that is any list of objects the prompt is one
    line per message, in order, joined by a newline; a message without
    [role] counts as "user", one without [content] has empty content, and
    a value that is not a string is written as [str] writes it. *)
Theorem prompt_lines_use_defaults `{PyRuntime} (d : gmap string json)
    (os : list (gmap string json)) :
  d !! "messages" = Some (JArr (JObj <$> os)) ->
  extract_prompt (JObj d)
  = Ok (JStr (String.concat nl
                ((fun o => py_str (default (JStr "user") (o !! "role")) +:+ ": "
                           +:+ py_str (default (JStr "") (o !! "content")))
                   <$> os))).
Proof.
  intros Hm. unfold extract_prompt. cbn [py_in py_get rbind]. rewrite Hm.
  rewrite bool_decide_eq_true_2 by eauto. cbn [default from_option id py_iter rbind].
  rewrite rmap_message_line_objects. reflexivity.
Qed.

Lemma prompt_lines_use_defaults_witness :
  @extract_prompt test_runtime
    (JObj {[ "messages" := JArr (JObj <$> odd_messages) ]})
  = Ok (JStr (String.concat nl
                ((fun o : gmap string json =>
                    @py_str test_runtime (default (JStr "user") (o !! "role"))
                    +:+ ": "
                    +:+ @py_str test_runtime (default (JStr "") (o !! "content")))
                   <$> odd_messages))).
Proof.
  apply (@prompt_lines_use_defaults test_runtime
           {[ "messages" := JArr (JObj <$> odd_messages) ]} odd_messages).
  reflexivity.
Defined.

Example prompt_of_odd_messages :
  @extract_prompt test_runtime
    (JObj {[ "messages" := JArr (JObj <$> odd_messages) ]})
  = Ok (JStr ("user: hi" +:+ nl +:+ "tool: None" +:+ nl +:+ "7: ")).
Proof. vm_compute. reflexivity. Qed.

(** X26. A completions request whose [messages] cannot be turned into a
    prompt (null, a number, a list holding something that is not an
    object) is answered 500 with the exception text, in the plain error
    body by lightweight-proxy.py and in the error object by
    proxy-wrapper.py, and the backend is not called. *)
Theorem malformed_messages_never_reach_backend `{PyRuntime} (E : env)
    (d : gmap string json) (w : world) (e : exn) :
  extract_prompt (JObj d) = Raise e ->
  Lightweight.v1_completions E (Ok (JObj d)) w
  = (Ok (JsonResponse (JObj {[ "error" := JStr (exn_msg e) ]}) 500), w)
  /\ Wrapper.v1_completions E (Ok (JObj d)) w
     = (Ok (JsonResponse
              (JObj {[ "error" :=
                         JObj {[ "message" := JStr (exn_msg e);
                                 "type" := JStr "internal_error";
                                 "code" := JStr "proxy_error" ]} ]})
              500), w).
Proof.
  intros Hraise. pose proof (extract_prompt_raises_ordinary d e Hraise) as He.
  split.
  - unfold Lightweight.v1_completions, Lightweight.shimmy_request, try_except,
      bind, lift, ret.
    rewrite Hraise. cbn [rbind]. rewrite He. reflexivity.
  - unfold Wrapper.v1_completions, Wrapper.shimmy_request, try_except,
      bind, lift, ret.
    cbn [py_get]. rewrite Hraise. cbn [rbind]. rewrite He. reflexivity.
Qed.

Lemma malformed_messages_never_reach_backend_witness :
  @Lightweight.v1_completions test_runtime (backend_answers 200 (JObj hello_result))
    (Ok (JObj {[ "messages" := JNull ]})) fresh
  = (Ok (JsonResponse
           (JObj {[ "error" := JStr "'NoneType' object is not iterable" ]}) 500),
     fresh)
  /\ @Wrapper.v1_completions test_runtime (backend_answers 200 (JObj hello_result))
       (Ok (JObj {[ "messages" := JNull ]})) fresh
     = (Ok (JsonResponse
              (JObj {[ "error" :=
                         JObj {[ "message" := JStr "'NoneType' object is not iterable";
                                 "type" := JStr "internal_error";
                                 "code" := JStr "proxy_error" ]} ]})
              500), fresh).
Proof.
  apply (@malformed_messages_never_reach_backend test_runtime
           (backend_answers 200 (JObj hello_result))
           {[ "messages" := JNull ]} fresh
           (Exn TypeError "'NoneType' object is not iterable")).
  reflexivity.
Defined.

(** ** The error line of the raw passthrough as JSON *)

Example error_object_recognised :
  is_error_object ("{" +:+ dq +:+ "error" +:+ dq +:+ ": " +:+ dq
                   +:+ "Read timed out. (read timeout=300)" +:+ dq +:+ "}" +:+ nl)
  = true.
Proof. vm_compute. reflexivity. Qed.

Example escaped_quote_recognised :
  is_error_object ("{" +:+ dq +:+ "error" +:+ dq +:+ ": " +:+ dq
                   +:+ "a \" +:+ dq +:+ "b\" +:+ dq +:+ " é \n"
                   +:+ dq +:+ "}" +:+ nl)
  = true.
Proof. vm_compute. reflexivity. Qed.

Example raw_quote_refused :
  is_error_object ("{" +:+ dq +:+ "error" +:+ dq +:+ ": " +:+ dq
                   +:+ "a " +:+ dq +:+ "b" +:+ dq +:+ "}" +:+ nl)
  = false.
Proof. vm_compute. reflexivity. Qed.

Example raw_newline_refused :
  is_error_object ("{" +:+ dq +:+ "error" +:+ dq +:+ ": " +:+ dq
                   +:+ "a" +:+ nl +:+ "b" +:+ dq +:+ "}" +:+ nl)
  = false.
Proof. vm_compute. reflexivity. Qed.

Lemma string_body_plain (msg tail : string) :
  plain msg = true ->
  string_body InText (msg +:+ dq +:+ tail) = Some tail.
Proof.
  induction msg as [|c msg IH]; [reflexivity|].
  change (plain_char c && plain msg = true ->
          string_body InText (String c (msg +:+ dq +:+ tail)) = Some tail).
  cbn [string_body]. unfold plain_char. cbv zeta. intros Hp.
  apply andb_true_iff in Hp as [Hc Hrest].
  apply andb_true_iff in Hc as [Hc Hctl].
  apply andb_true_iff in Hc as [Hq Hb].
  apply negb_true_iff in Hq, Hb, Hctl. rewrite Hq, Hb, Hctl.
  apply IH, Hrest.
Qed.

Lemma is_error_object_after_opening (rest : string) :
  is_error_object ("{" +:+ dq +:+ "error" +:+ dq +:+ ": " +:+ dq +:+ rest)
  = match s5 ← string_body InText rest; after_prefix "}" (skip_ws s5) with
    | Some trailing => String.eqb (skip_ws trailing) ""
    | None => false
    end.
Proof. reflexivity. Qed.

(** C7. The claim fails on the code for a refused connection: the
    exception text of [requests] holds double quotes, the f-string puts
    it between the quotes of the error line without escaping, and the
    last chunk of the relay is not a JSON object. The relay still ends
    with that one chunk and without an exception. *)
Theorem relay_error_line_is_not_json (data : json) (w : world) :
  run_generator (Lightweight.generate backend_refuses data) None w
  = (Ok tt,
     [Bytes (Lightweight.error_chunk (Exn RequestException refused_message))],
     log (Http (Call "POST" (Lightweight.SHIMMY_URL +:+ "/api/generate")
                     (Some data) true 300)) w)
  /\ is_error_object
       (string_of_list_byte
          (Lightweight.error_chunk (Exn RequestException refused_message)))
     = false.
Proof. split; [reflexivity|]. vm_compute. reflexivity. Qed.

(** X28. When the exception text has no double quote, no backslash and no
    control character, the last chunk of a failed raw passthrough is a
    JSON object with the single member "error" holding a string. *)
Theorem plain_error_line_is_json (e : exn) :
  plain (exn_msg e) = true ->
  is_error_object (string_of_list_byte (Lightweight.error_chunk e)) = true.
Proof.
  intros Hp. unfold Lightweight.error_chunk, encode.
  rewrite string_of_list_byte_of_string.
  rewrite is_error_object_after_opening.
  rewrite (string_body_plain (exn_msg e) ("}" +:+ nl) Hp). reflexivity.
Qed.

Lemma plain_error_line_is_json_witness :
  is_error_object
    (string_of_list_byte
       (Lightweight.error_chunk (Exn RequestException "Connection broken")))
  = true.
Proof.
  apply (plain_error_line_is_json (Exn RequestException "Connection broken")).
  vm_compute. reflexivity.
Defined.

Example add_str_and_int_raises :
  @py_add test_runtime (JStr "3") (JInt 2)
  = Raise (Exn TypeError ("can only concatenate str (not " +:+ dq +:+ "int"
                          +:+ dq +:+ ") to str")).
Proof. reflexivity. Qed.

Example add_list_and_str_raises :
  @py_add test_runtime (JArr []) (JStr "x")
  = Raise (Exn TypeError ("can only concatenate list (not " +:+ dq +:+ "str"
                          +:+ dq +:+ ") to list")).
Proof. reflexivity. Qed.

Example add_int_and_str_raises :
  @py_add test_runtime (JInt 3) (JStr "2")
  = Raise (Exn TypeError "unsupported operand type(s) for +: 'int' and 'str'").
Proof. reflexivity. Qed.
